(** Verification of the anki-translator frontend: the API client
    ([frontend/src/api/client.ts]), the word selection page and the
    translate page, shallowly embedded. *)

From Stdlib Require Import String List Bool ZArith Lia.
Import ListNotations.
Open Scope string_scope.
Set Warnings "-register-all".

(** * JavaScript values that cross the HTTP boundary *)

(** A parsed JSON value, as [res.json()] yields it. *)
Inductive json : Type :=
| JNull
| JBool (b : bool)
| JNum (z : Z)
| JStr (s : string)
| JArr (xs : list json)
| JObj (kvs : list (string * json)).

(** [JSON.parse] keeps the last binding of a duplicated key. *)
Fixpoint obj_get (k : string) (kvs : list (string * json)) : option json :=
  match kvs with
  | [] => None
  | (k', v) :: rest =>
      match obj_get k rest with
      | Some w => Some w
      | None => if String.eqb k k' then Some v else None
      end
  end.

(** JavaScript truthiness of a JSON value ([NaN] cannot come out of JSON). *)
Definition truthy (v : json) : bool :=
  match v with
  | JNull => false
  | JBool b => b
  | JNum z => negb (Z.eqb z 0)
  | JStr s => negb (String.eqb s "")
  | JArr _ | JObj _ => true
  end.

(** Outcome of a property read [v.detail]: a value, [undefined], or a
    [TypeError] when [v] is [null]. *)
Inductive prop_read : Type :=
| PVal (v : json)
| PUndefined
| PTypeError.

Definition get_detail (v : json) : prop_read :=
  match v with
  | JNull => PTypeError
  | JObj kvs => match obj_get "detail" kvs with
                | Some d => PVal d
                | None => PUndefined
                end
  | _ => PUndefined
  end.

(** * The API client: [frontend/src/api/client.ts] *)
Module Client.

(** Durable store: [localStorage], an association list, newest binding first. *)
Definition store := list (string * string).

Fixpoint store_get (k : string) (s : store) : option string :=
  match s with
  | [] => None
  | (k', v) :: rest => if String.eqb k k' then Some v else store_get k rest
  end.

Definition store_remove (k : string) (s : store) : store :=
  filter (fun kv => negb (String.eqb (fst kv) k)) s.

Definition store_set (k v : string) (s : store) : store :=
  (k, v) :: store_remove k s.

(** Module state: the [authToken] variable and the store. *)
Record client := mkClient { authToken : option string; storage : store }.

(** Truthiness of a [string | null]. *)
Definition truthy_str (t : option string) : bool :=
  match t with
  | Some s => negb (String.eqb s "")
  | None => false
  end.

(** Module initialisation:
    [let authToken = localStorage.getItem("token");] *)
Definition client_init (s : store) : client :=
  mkClient (store_get "token" s) s.

(** [setToken(token)]. *)
Definition setToken (token : option string) (c : client) : client :=
  let st := storage c in
  let st' := match token with
             | Some t => if truthy_str token then store_set "token" t st
                         else store_remove "token" st
             | None => store_remove "token" st
             end in
  mkClient token st'.

Definition getToken (c : client) : option string := authToken c.

(** Request body of [RequestInit]: absent, a JSON string, or a [FormData]. *)
Inductive body := NoBody | StrBody (s : string) | FormBody.

Record req_opts := mkOpts {
  method : string;
  headers : list (string * string);
  rbody : body }.

Definition default_opts : req_opts := mkOpts "GET" [] NoBody.

(** What [fetch] gives back: a network failure (the promise rejects with a
    [TypeError]) or a response whose body text parses to [Some v] or fails
    to parse ([None]). *)
Inductive response :=
| NetworkError
| Resp (status : Z) (statusText : string) (parsed : option json).

Definition res_ok (status : Z) : bool := (200 <=? status)%Z && (status <=? 299)%Z.

(** Observable effects of [request], in order. *)
Inductive effect :=
| Fetch (url : string) (hdrs : list (string * string)) (o : req_opts)
| ClearToken
| RedirectTo (href : string).

(** The message given to [new Error(...)]: a string, or a non-string value
    that the constructor converts with [String(...)]. *)
Inductive err_msg := MStr (s : string) | MVal (v : json).

Inductive js_error :=
| Error (m : err_msg)
| TypeError
| SyntaxError.

Inductive outcome :=
| Resolved (v : option json)   (* [None] is [undefined] *)
| Rejected (e : js_error).

Definition set_header (k v : string) (h : list (string * string)) :=
  List.app (filter (fun kv => negb (String.eqb (fst kv) k)) h) [(k, v)].

Definition is_form (b : body) : bool :=
  match b with FormBody => true | _ => false end.

Definition API_BASE := "/api".

(** The headers [request] builds before calling [fetch]. *)
Definition build_headers (tok : option string) (o : req_opts) :=
  let h := headers o in
  let h := match tok with
           | Some t => if truthy_str tok then set_header "Authorization" ("Bearer " ++ t) h
                       else h
           | None => h
           end in
  if is_form (rbody o) then h else set_header "Content-Type" "application/json" h.

(** [error.detail || res.statusText] applied to the object [error]. *)
Definition thrown_message (err : json) (statusText : string) : option err_msg :=
  match get_detail err with
  | PTypeError => None
  | PVal d => if truthy d then
                Some (match d with JStr s => MStr s | _ => MVal d end)
              else Some (MStr statusText)
  | PUndefined => Some (MStr statusText)
  end.

(** [request(path, options)]: the client state it leaves, its effects and
    its outcome. *)
Definition request (c : client) (path : string) (o : req_opts) (r : response)
  : client * list effect * outcome :=
  let hdrs := build_headers (authToken c) o in
  let f := Fetch (API_BASE ++ path) hdrs o in
  match r with
  | NetworkError => (c, [f], Rejected TypeError)
  | Resp status statusText parsed =>
      if negb (res_ok status) then
        let err := match parsed with
                   | Some v => v
                   | None => JObj [("detail", JStr statusText)]
                   end in
        let '(c', effs) :=
          if (status =? 401)%Z && negb (String.prefix "/auth/login" path)
          then (setToken None c, [f; ClearToken; RedirectTo "/login"])
          else (c, [f]) in
        match thrown_message err statusText with
        | Some m => (c', effs, Rejected (Error m))
        | None => (c', effs, Rejected TypeError)
        end
      else if (status =? 204)%Z then (c, [f], Resolved None)
      else match parsed with
           | Some v => (c, [f], Resolved (Some v))
           | None => (c, [f], Rejected SyntaxError)
           end
  end.

(** [api.translate(data)]; [data] is the already serialised
    [JSON.stringify(data)]. *)
Definition translate (c : client) (data : string) (r : response) :=
  request c "/translate" (mkOpts "POST" [] (StrBody data)) r.

(** [api.listCards()] with no parameters: a protected operation. *)
Definition listCards (c : client) (r : response) :=
  request c "/cards" default_opts r.

End Client.

(** [ProtectedRoute] of [App]: the render-time credential gate. *)
Inductive route_view := RenderChildren | NavigateLogin.

Definition ProtectedRoute (c : Client.client) : route_view :=
  if Client.truthy_str (Client.getToken c) then RenderChildren else NavigateLogin.

(** * Shared types of the pages *)

(** Result of an awaited API call, as the pages see it: a value, or a
    rejection carrying [err.message]. *)
Inductive res (A : Type) : Type :=
| Ok (a : A)
| Err (msg : string).
Arguments Ok {A} a.
Arguments Err {A} msg.

(** [TranslationOption] of the client. *)
Record TranslationOption := mkTO {
  to_word : string;
  to_translation : string;
  to_part_of_speech : option string;
  to_context : option string }.

Definition TO_eq_dec (a b : TranslationOption) : {a = b} + {a <> b}.
Proof.
  decide equality; first [apply string_dec | decide equality; apply string_dec].
Defined.

(** The [cardData] of the translate page. *)
Record CardData := mkCard {
  note_type_id : string;
  fields : list (string * string) }.

(** Remove the first occurrence of an element (resolving one pending call). *)
Fixpoint remove_first {A} (dec : forall x y : A, {x = y} + {x <> y})
  (a : A) (l : list A) : list A :=
  match l with
  | [] => []
  | x :: r => if dec a x then r else x :: remove_first dec a r
  end.

Definition mem {A} (dec : forall x y : A, {x = y} + {x <> y}) (a : A) (l : list A) : bool :=
  existsb (fun x => if dec a x then true else false) l.

(** * TranslatePage ([frontend/src/pages/TranslatePage.tsx], lines 1-234) *)
Module TP.

Inductive Phase := Translating | Choosing | Formatting | Preview | Saved.

(** Awaits the page is suspended on.  [PFormat o nl via] is
    [formatWithTranslation(o, nl)], with [via] telling whether
    [handleAddNativeTranslation] awaits it; [PGetMe c] is [api.getMe()] in
    [handleAddNativeTranslation] whose closure captured [chosenTranslation = c]. *)
Inductive pending :=
| PTranslate
| PFormat (o : TranslationOption) (nl : option string) (via : bool)
| PCreate
| PAccept (id : string)
| PGetMe (c : TranslationOption).

Definition pending_eq_dec (a b : pending) : {a = b} + {a <> b}.
Proof.
  decide equality;
    first [apply TO_eq_dec | apply bool_dec | apply string_dec
          | decide equality; apply string_dec].
Defined.

(** Network calls the page issues, in order. *)
Inductive call :=
| CallTranslate (word deck : string)
| CallFormat (deck : string) (o : TranslationOption) (nl : option string)
| CallCreate (deck nt : string) (flds : list (string * string)) (source_word : string)
| CallAccept (id : string)
| CallGetMe.

(** Buttons the page renders and leaves enabled. *)
Inductive action :=
| AChoose (i : nat)
| ABackToWords
| AAccept
| AAddNative
| AReject
| ATranslateAnother
| ANewPhoto.

Definition action_eq_dec (a b : action) : {a = b} + {a <> b}.
Proof. decide equality; apply Nat.eq_dec. Defined.

Record state := mkState {
  word : string;
  deckId : string;
  phase : Phase;
  error : string;
  translations : list TranslationOption;
  chosenTranslation : option TranslationOption;
  cardData : option CardData;
  saving : bool;
  addingNative : bool;
  inflight : list pending;
  calls : list call;
  route : option string }.

(** The component's state right after its first render. *)
Definition init (w d : string) : state :=
  mkState w d Translating "" [] None None false false [] [] None.

Definition set_phase p s := mkState (word s) (deckId s) p (error s) (translations s)
  (chosenTranslation s) (cardData s) (saving s) (addingNative s) (inflight s) (calls s) (route s).
Definition set_error e s := mkState (word s) (deckId s) (phase s) e (translations s)
  (chosenTranslation s) (cardData s) (saving s) (addingNative s) (inflight s) (calls s) (route s).
Definition set_translations t s := mkState (word s) (deckId s) (phase s) (error s) t
  (chosenTranslation s) (cardData s) (saving s) (addingNative s) (inflight s) (calls s) (route s).
Definition set_chosen c s := mkState (word s) (deckId s) (phase s) (error s) (translations s)
  c (cardData s) (saving s) (addingNative s) (inflight s) (calls s) (route s).
Definition set_cardData d s := mkState (word s) (deckId s) (phase s) (error s) (translations s)
  (chosenTranslation s) d (saving s) (addingNative s) (inflight s) (calls s) (route s).
Definition set_saving b s := mkState (word s) (deckId s) (phase s) (error s) (translations s)
  (chosenTranslation s) (cardData s) b (addingNative s) (inflight s) (calls s) (route s).
Definition set_addingNative b s := mkState (word s) (deckId s) (phase s) (error s) (translations s)
  (chosenTranslation s) (cardData s) (saving s) b (inflight s) (calls s) (route s).
Definition set_inflight l s := mkState (word s) (deckId s) (phase s) (error s) (translations s)
  (chosenTranslation s) (cardData s) (saving s) (addingNative s) l (calls s) (route s).
Definition set_route r s := mkState (word s) (deckId s) (phase s) (error s) (translations s)
  (chosenTranslation s) (cardData s) (saving s) (addingNative s) (inflight s) (calls s) r.

(** Suspend on [p] after issuing the network call [c]. *)
Definition await_call (p : pending) (c : call) (s : state) : state :=
  mkState (word s) (deckId s) (phase s) (error s) (translations s)
    (chosenTranslation s) (cardData s) (saving s) (addingNative s)
    (inflight s ++ [p]) (calls s ++ [c]) (route s).

Definition resolve (p : pending) (s : state) : state :=
  set_inflight (remove_first pending_eq_dec p (inflight s)) s.

Definition is_pending (p : pending) (s : state) : bool :=
  mem pending_eq_dec p (inflight s).

Definition phase_eqb (a b : Phase) : bool :=
  match a, b with
  | Translating, Translating | Choosing, Choosing | Formatting, Formatting
  | Preview, Preview | Saved, Saved => true
  | _, _ => false
  end.

(** The render function: which buttons are on screen and enabled. *)
Definition actions (s : state) : list action :=
  if String.eqb (word s) "" then [ABackToWords] else
  match phase s with
  | Translating | Formatting => []
  | Choosing => map AChoose (seq 0 (length (translations s))) ++ [ABackToWords]
  | Saved => [ATranslateAnother; ANewPhoto]
  | Preview =>
      match cardData s with
      | None => []
      | Some _ => (if saving s then [] else [AAccept])
                  ++ (if addingNative s then [] else [AAddNative]) ++ [AReject]
      end
  end.

(** [formatWithTranslation(option, nativeLanguage)] up to its await. *)
Definition formatWithTranslation (o : TranslationOption) (nl : option string)
  (via : bool) (s : state) : state :=
  let s := set_error "" (set_phase Formatting (set_chosen (Some o) s)) in
  await_call (PFormat o nl via) (CallFormat (deckId s) o nl) s.

(** [loadTranslations()] up to its await. *)
Definition loadTranslations (s : state) : state :=
  let s := set_error "" (set_phase Translating s) in
  await_call PTranslate (CallTranslate (word s) (deckId s)) s.

(** [handleAccept()] up to its first await. *)
Definition handleAccept (s : state) : state :=
  match cardData s with
  | None => s
  | Some d =>
      await_call PCreate (CallCreate (deckId s) (note_type_id d) (fields d) (word s))
        (set_saving true s)
  end.

(** [handleAddNativeTranslation()] up to its first await. *)
Definition handleAddNativeTranslation (s : state) : state :=
  match chosenTranslation s with
  | None => s
  | Some c => await_call (PGetMe c) CallGetMe (set_addingNative true s)
  end.

(** The click handler of each button. *)
Definition click (a : action) (s : state) : state :=
  match a with
  | AChoose i => match nth_error (translations s) i with
                 | Some o => formatWithTranslation o None false s
                 | None => s
                 end
  | AAccept => handleAccept s
  | AAddNative => handleAddNativeTranslation s
  | ABackToWords | AReject | ATranslateAnother => set_route (Some "/words") s
  | ANewPhoto => set_route (Some "/") s
  end.

(** Events: the mount effect, a click on a button, or the settling of an
    awaited call. *)
Inductive event :=
| Mount
| Click (a : action)
| TranslateDone (r : res (list TranslationOption))
| FormatDone (o : TranslationOption) (nl : option string) (via : bool) (r : res CardData)
| CreateDone (r : res string)
| AcceptDone (id : string) (r : res unit)
| GetMeDone (c : TranslationOption) (r : res (option string)).

(** One event.  A click on a button that is not on screen or is disabled,
    or the settling of a call that is not pending, changes nothing. *)
Definition step (s : state) (e : event) : state :=
  match e with
  | Mount =>
      (* useEffect(() => { if (!word) return; loadTranslations(); }, [word]) *)
      if String.eqb (word s) "" then s else loadTranslations s
  | Click a =>
      if mem action_eq_dec a (actions s) then click a s else s
  | TranslateDone r =>
      if negb (is_pending PTranslate s) then s else
      let s := resolve PTranslate s in
      match r with
      | Ok ts =>
          let s := set_translations ts s in
          match ts with
          | [o] => formatWithTranslation o None false s
          | _ => set_phase Choosing s
          end
      | Err m => set_phase Choosing (set_error m s)
      end
  | FormatDone o nl via r =>
      if negb (is_pending (PFormat o nl via) s) then s else
      let s := resolve (PFormat o nl via) s in
      let s := match r with
               | Ok d => set_phase Preview (set_cardData (Some d) s)
               | Err m => set_phase Choosing (set_error m s)
               end in
      (* the [finally] of handleAddNativeTranslation *)
      if via then set_addingNative false s else s
  | CreateDone r =>
      if negb (is_pending PCreate s) then s else
      let s := resolve PCreate s in
      match r with
      | Ok id => await_call (PAccept id) (CallAccept id) s
      | Err m => set_saving false (set_error m s)
      end
  | AcceptDone id r =>
      if negb (is_pending (PAccept id) s) then s else
      let s := resolve (PAccept id) s in
      match r with
      | Ok _ => set_saving false (set_phase Saved s)
      | Err m => set_saving false (set_error m s)
      end
  | GetMeDone c r =>
      if negb (is_pending (PGetMe c) s) then s else
      let s := resolve (PGetMe c) s in
      match r with
      | Ok nl =>
          if Client.truthy_str nl then formatWithTranslation c nl true s
          else set_addingNative false
                 (set_error "Please set your native language in Settings first." s)
      | Err m => set_addingNative false (set_error m s)
      end
  end.

Definition run (s : state) (es : list event) : state := fold_left step es s.

(** The phase after each event of a run. *)
Fixpoint phases (s : state) (es : list event) : list Phase :=
  match es with
  | [] => []
  | e :: es' => let s' := step s e in phase s' :: phases s' es'
  end.

Definition is_create (c : call) : bool :=
  match c with CallCreate _ _ _ _ => true | _ => false end.

(** Number of [createCard] calls issued so far. *)
Definition createCard_calls (s : state) : nat := length (filter is_create (calls s)).

(** Pending awaits of [handleAccept]: [createCard] or [acceptCard]. *)
Definition is_accept_op (p : pending) : bool :=
  match p with PCreate | PAccept _ => true | _ => false end.

(** Bookkeeping of [handleAccept]: one [createCard] or [acceptCard] await
    is pending exactly while [saving] is set. *)
Definition accept_inv (s : state) : Prop :=
  length (filter is_accept_op (inflight s)) = if saving s then 1 else 0.

Definition is_create_pending (p : pending) : bool :=
  match p with PCreate => true | _ => false end.

End TP.

(** * WordSelectPage ([frontend/src/pages/TranslatePage.tsx], lines 408-534)
    together with the [selectedWord] state of [App] it writes through
    [onWordSelected]. *)
Module WS.

Record verdict := mkVerdict {
  is_duplicate : bool;
  duplicate_of_id : option string;
  explanation : option string }.

Record dup := mkDup {
  dup_word : string;
  dup_explanation : string;
  dup_of_id : option string }.

Inductive action :=
| AWord (i : nat)
| AProceed
| AChooseDifferent
| ABackToCamera.

Definition action_eq_dec (a b : action) : {a = b} + {a <> b}.
Proof. decide equality; apply Nat.eq_dec. Defined.

Record state := mkState {
  words : list string;
  deckId : string;
  checking : option string;
  duplicate : option dup;
  selectedWord : string;          (* App's state *)
  checks : list string;           (* words of the pending checkDuplicate calls *)
  route : option string }.

Definition init (ws : list string) (d sel : string) : state :=
  mkState ws d None None sel [] None.

(** The render function: buttons on screen and enabled. *)
Definition actions (s : state) : list action :=
  match words s with
  | [] => [ABackToCamera]
  | _ =>
      (match checking s with
       | None => map AWord (seq 0 (length (words s)))
       | Some _ => []                      (* disabled={checking !== null} *)
       end)
      ++ (match duplicate s with Some _ => [AProceed; AChooseDifferent] | None => [] end)
      ++ [ABackToCamera]
  end.

(** [onWordSelected(word); navigate("/translate");] *)
Definition select (w : string) (s : state) : state :=
  mkState (words s) (deckId s) (checking s) (duplicate s) w (checks s) (Some "/translate").

(** [handleWordClick(word)] up to its await. *)
Definition handleWordClick (w : string) (s : state) : state :=
  if String.eqb (deckId s) "" then select w s
  else mkState (words s) (deckId s) (Some w) None (selectedWord s) (checks s ++ [w]) (route s).

Definition click (a : action) (s : state) : state :=
  match a with
  | AWord i => match nth_error (words s) i with
               | Some w => handleWordClick w s
               | None => s
               end
  | AProceed => match duplicate s with
                | Some d => select (dup_word d) s
                | None => s
                end
  | AChooseDifferent =>
      mkState (words s) (deckId s) (checking s) None (selectedWord s) (checks s) (route s)
  | ABackToCamera =>
      mkState (words s) (deckId s) (checking s) (duplicate s) (selectedWord s) (checks s) (Some "/")
  end.

Inductive event :=
| Click (a : action)
| CheckDone (w : string) (r : res verdict).

Definition set_checking c s :=
  mkState (words s) (deckId s) c (duplicate s) (selectedWord s) (checks s) (route s).

Definition step (s : state) (e : event) : state :=
  match e with
  | Click a => if mem action_eq_dec a (actions s) then click a s else s
  | CheckDone w r =>
      if negb (mem string_dec w (checks s)) then s else
      let s := mkState (words s) (deckId s) (checking s) (duplicate s) (selectedWord s)
                 (remove_first string_dec w (checks s)) (route s) in
      let s := match r with
               | Ok v =>
                   if is_duplicate v then
                     mkState (words s) (deckId s) (checking s)
                       (Some (mkDup w (match explanation v with
                                       | Some e => if String.eqb e "" then
                                                     "This word may already exist in your deck."
                                                   else e
                                       | None => "This word may already exist in your deck."
                                       end) (duplicate_of_id v)))
                       (selectedWord s) (checks s) (route s)
                   else select w s
               | Err _ => (* If duplicate check fails, proceed anyway *) select w s
               end in
      set_checking None s                 (* finally *)
  end.

Definition run (s : state) (es : list event) : state := fold_left step es s.

End WS.

(** * App ([frontend/src/App.tsx], in [src/unnamed/part_002] lines 64-182):
    the persisted deck selection and the logout link.  The durable store is
    the one of [Client], shared with the token. *)
Module App.

(** [useState(localStorage.getItem("selectedDeckId") || "")] *)
Definition init_deck (st : Client.store) : string :=
  match Client.store_get "selectedDeckId" st with
  | Some v => if String.eqb v "" then "" else v
  | None => ""
  end.

(** [setSelectedDeckId(id)]: the App state and the store it leaves. *)
Definition setSelectedDeckId (id : string) (st : Client.store) : string * Client.store :=
  (id, Client.store_set "selectedDeckId" id st).

(** The Logout link of [Header]: [setToken(null); window.location.href = "/login"]. *)
Definition logout (c : Client.client) : Client.client * string :=
  (Client.setToken None c, "/login").

End App.

(** * CardsPage ([frontend/src/pages/CardsPage.tsx]) *)
Module Cards.

Record card := mkCard {
  card_id : string;
  card_fields : list (string * string);
  status : string;
  source_word : option string;
  created_at : string }.

Record state := mkState { cards : list card; loading : bool }.

(** [loadCards()] run to completion: [r] settles [api.listCards(params)];
    returns the state and the query parameters sent. *)
Definition loadCards (deckId : string) (r : res (list card)) (s : state)
  : state * list (string * string) :=
  let params := if String.eqb deckId "" then [] else [("deck_id", deckId)] in
  match r with
  | Ok cs => (mkState cs false, params)
  | Err _ => (mkState (cards s) false, params)
  end.

(** [cards.filter((c) => c.status === "pending_sync").length] *)
Definition pendingCount (cs : list card) : nat :=
  length (filter (fun c => String.eqb (status c) "pending_sync") cs).

(** The banner [{pendingCount} card{pendingCount !== 1 ? "s" : ""} pending sync],
    shown when [pendingCount > 0]. *)
Definition pending_banner (cs : list card) : option (nat * string) :=
  let n := pendingCount cs in
  if Nat.ltb 0 n then Some (n, if Nat.eqb n 1 then "card" else "cards") else None.

End Cards.

(** * Concrete inputs (spec scenario A) *)

Definition hund_dog : TranslationOption := mkTO "Hund" "dog" None None.
Definition hund_hound : TranslationOption := mkTO "Hund" "hound" None None.
Definition basic_card : CardData := mkCard "basic" [("Front", "Hund"); ("Back", "dog")].
Definition native_card : CardData :=
  mkCard "basic" [("Front", "Hund"); ("Back", "dog"); ("Native", "chien")].
Definition german_deck := "German::Vocabulary".

(** The translate page in Preview after a one-candidate translation. *)
Definition preview_state : TP.state :=
  TP.run (TP.init "Hund" german_deck)
    [TP.Mount; TP.TranslateDone (Ok [hund_dog]);
     TP.FormatDone hund_dog None false (Ok basic_card)].

Definition c_empty : Client.client := Client.client_init [].

(** A client whose token was set to the empty string, and one holding a token. *)
Definition empty_token_client : Client.client := Client.setToken (Some "") c_empty.
Definition abc_client : Client.client := Client.setToken (Some "abc") c_empty.

(** The translate page after mounting on "Hund". *)
Definition translating_state : TP.state := TP.step (TP.init "Hund" german_deck) TP.Mount.

(** Preview with an Add Native Translation pending on [getMe]. *)
Definition adding_native_state : TP.state := TP.run preview_state [TP.Click TP.AAddNative].

(** The word selection page of scenario A, with the deck selected. *)
Definition ws_words_state : WS.state := WS.init ["Fuchs"; "Hund"; "Garten"] german_deck "".

(** A 401 answer of the card list endpoint. *)
Definition cards_401 : Client.response :=
  Client.Resp 401 "Unauthorized" (Some (JObj [("detail", JStr "Not authenticated")])).

(** The outcome component of [Client.request]'s result. *)
Definition outcome_of (x : Client.client * list Client.effect * Client.outcome) := snd x.

(** * Further concrete inputs *)

Definition ws_checking_state : WS.state := WS.step ws_words_state (WS.Click (WS.AWord 1)).

Definition hund_dup_verdict : WS.verdict :=
  WS.mkVerdict true (Some "card-7") (Some "similar to 'der Hund'").

Definition ws_warning_state : WS.state :=
  WS.step ws_checking_state (WS.CheckDone "Hund" (Ok hund_dup_verdict)).

Definition formatting_state : TP.state :=
  TP.step translating_state (TP.TranslateDone (Ok [hund_dog])).

Definition choosing_state : TP.state :=
  TP.step translating_state (TP.TranslateDone (Ok [hund_dog; hund_hound])).

Definition native_formatting_state : TP.state :=
  TP.step adding_native_state (TP.GetMeDone hund_dog (Ok (Some "French"))).
Definition saving_state : TP.state := TP.step preview_state (TP.Click TP.AAccept).

Definition saved_state : TP.state :=
  TP.run preview_state [TP.Click TP.AAccept; TP.CreateDone (Ok "card-1");
                        TP.AcceptDone "card-1" (Ok tt)].

Definition saved_native_pending_state : TP.state :=
  TP.run preview_state [TP.Click TP.AAddNative; TP.Click TP.AAccept;
                        TP.CreateDone (Ok "card-1"); TP.AcceptDone "card-1" (Ok tt)].


Example preview_state_phase : TP.phase preview_state = TP.Preview.
Proof. reflexivity. Qed.

Example preview_state_actions :
  TP.actions preview_state = [TP.AAccept; TP.AAddNative; TP.AReject].
Proof. reflexivity. Qed.

Example scenario_A_accept :
  TP.phase (TP.run preview_state
              [TP.Click TP.AAccept; TP.CreateDone (Ok "card-1");
               TP.AcceptDone "card-1" (Ok tt)]) = TP.Saved.
Proof. reflexivity. Qed.

Example two_candidates_choose :
  TP.phases (TP.init "Hund" german_deck)
    [TP.Mount; TP.TranslateDone (Ok [hund_dog; hund_hound]); TP.Click (TP.AChoose 1);
     TP.FormatDone hund_hound None false (Ok basic_card)]
  = [TP.Translating; TP.Choosing; TP.Formatting; TP.Preview].
Proof. reflexivity. Qed.

Example request_404_detail :
  snd (Client.request c_empty "/cards/x/accept" (Client.mkOpts "POST" [] Client.NoBody)
         (Client.Resp 404 "Not Found" (Some (JObj [("detail", JStr "Card not found")]))))
  = Client.Rejected (Client.Error (Client.MStr "Card not found")).
Proof. reflexivity. Qed.

Example ws_duplicate_then_proceed :
  let s := WS.run (WS.init ["Fuchs"; "Hund"; "Garten"] german_deck "")
             [WS.Click (WS.AWord 1);
              WS.CheckDone "Hund" (Ok (WS.mkVerdict true None (Some "similar to 'der Hund'")));
              WS.Click WS.AProceed] in
  WS.selectedWord s = "Hund" /\ WS.route s = Some "/translate".
Proof. split; reflexivity. Qed.

(** * Helper lemmas *)

Lemma mem_app_last {A} (dec : forall x y : A, {x = y} + {x <> y}) (a : A) l :
  mem dec a (l ++ [a]) = true.
Proof.
  unfold mem. apply existsb_exists. exists a.
  split; [apply in_or_app; right; left; reflexivity |].
  destruct (dec a a); congruence.
Qed.

Lemma mem_true_In {A} (dec : forall x y : A, {x = y} + {x <> y}) a l :
  mem dec a l = true -> In a l.
Proof.
  unfold mem. intros H. apply existsb_exists in H as [x [Hx Hd]].
  destruct (dec a x); [subst; exact Hx | discriminate].
Qed.

Lemma In_mem_true {A} (dec : forall x y : A, {x = y} + {x <> y}) a l :
  In a l -> mem dec a l = true.
Proof.
  intros H. unfold mem. apply existsb_exists. exists a. split; [exact H |].
  destruct (dec a a); congruence.
Qed.

Lemma In_map_seq {B} (f : nat -> B) i n : i < n -> In (f i) (map f (seq 0 n)).
Proof. intros H. apply in_map. apply in_seq. lia. Qed.

Lemma nth_error_lt {A} (l : list A) i x : nth_error l i = Some x -> i < length l.
Proof. intros H. apply nth_error_Some. congruence. Qed.

Lemma count_app {A} (f : A -> bool) l l' :
  length (filter f (l ++ l')) = length (filter f l) + length (filter f l').
Proof. rewrite filter_app, length_app. reflexivity. Qed.

Lemma count_remove_first_other {A} (dec : forall x y : A, {x = y} + {x <> y})
  (f : A -> bool) a l :
  f a = false -> length (filter f (remove_first dec a l)) = length (filter f l).
Proof.
  intros Ha. induction l as [|x l IH]; simpl; [reflexivity |].
  destruct (dec a x) as [<-|Hne]; simpl.
  - rewrite Ha. reflexivity.
  - destruct (f x); simpl; rewrite IH; reflexivity.
Qed.

Lemma count_remove_first_in {A} (dec : forall x y : A, {x = y} + {x <> y})
  (f : A -> bool) a l :
  f a = true -> In a l ->
  S (length (filter f (remove_first dec a l))) = length (filter f l).
Proof.
  intros Ha. induction l as [|x l IH]; simpl; [tauto |].
  intros [->|Hin].
  - destruct (dec a a) as [_|]; [|congruence]. rewrite Ha. reflexivity.
  - destruct (dec a x) as [<-|Hne]; simpl.
    + rewrite Ha. reflexivity.
    + destruct (f x); simpl; rewrite (IH Hin); reflexivity.
Qed.

Lemma store_get_remove k s : Client.store_get k (Client.store_remove k s) = None.
Proof.
  induction s as [|[k' v] s IH]; simpl; [reflexivity |].
  destruct (String.eqb k' k) eqn:E; simpl.
  - exact IH.
  - rewrite String.eqb_sym, E. exact IH.
Qed.

Lemma store_get_set k v s : Client.store_get k (Client.store_set k v s) = Some v.
Proof. simpl. rewrite String.eqb_refl. reflexivity. Qed.

(** The buttons of the translate page in Preview. *)
Lemma TP_accept_enabled s :
  mem TP.action_eq_dec TP.AAccept (TP.actions s) = true ->
  TP.saving s = false /\ TP.phase s = TP.Preview /\ TP.cardData s <> None.
Proof.
  intros H. unfold TP.actions in H.
  destruct (String.eqb (TP.word s) ""); [discriminate |].
  destruct (TP.phase s); simpl in H; try discriminate.
  - apply mem_true_In in H. apply in_app_or in H as [H|H].
    + apply in_map_iff in H as [? [? _]]. discriminate.
    + destruct H as [H|[]]. discriminate.
  - destruct (TP.cardData s); [|discriminate].
    destruct (TP.saving s), (TP.addingNative s); simpl in H; try discriminate;
      repeat split; congruence.
Qed.

Lemma TP_accept_in s d :
  TP.word s <> "" -> TP.phase s = TP.Preview -> TP.cardData s = Some d ->
  TP.saving s = false -> mem TP.action_eq_dec TP.AAccept (TP.actions s) = true.
Proof.
  intros Hw Hp Hd Hs. unfold TP.actions.
  apply String.eqb_neq in Hw. rewrite Hw, Hp, Hd, Hs. reflexivity.
Qed.

(** Equations of [TP.step] on the events of an Accept attempt. *)
Lemma TP_step_click_accept s d :
  mem TP.action_eq_dec TP.AAccept (TP.actions s) = true -> TP.cardData s = Some d ->
  TP.step s (TP.Click TP.AAccept)
  = TP.await_call TP.PCreate
      (TP.CallCreate (TP.deckId s) (note_type_id d) (fields d) (TP.word s))
      (TP.set_saving true s).
Proof.
  intros He Hd. unfold TP.step. rewrite He. unfold TP.click, TP.handleAccept.
  rewrite Hd. reflexivity.
Qed.

Lemma TP_step_create_ok s id :
  TP.is_pending TP.PCreate s = true ->
  TP.step s (TP.CreateDone (Ok id))
  = TP.await_call (TP.PAccept id) (TP.CallAccept id) (TP.resolve TP.PCreate s).
Proof. intros H. unfold TP.step. rewrite H. reflexivity. Qed.

Lemma TP_step_accept_err s id m :
  TP.is_pending (TP.PAccept id) s = true ->
  TP.step s (TP.AcceptDone id (Err m))
  = TP.set_saving false (TP.set_error m (TP.resolve (TP.PAccept id) s)).
Proof. intros H. unfold TP.step. rewrite H. reflexivity. Qed.

Lemma TP_step_translate_ok s ts :
  TP.is_pending TP.PTranslate s = true ->
  TP.step s (TP.TranslateDone (Ok ts))
  = (let s' := TP.set_translations ts (TP.resolve TP.PTranslate s) in
     match ts with
     | [o] => TP.formatWithTranslation o None false s'
     | _ => TP.set_phase TP.Choosing s'
     end).
Proof. intros H. unfold TP.step. rewrite H. reflexivity. Qed.

Lemma TP_step_format_ok s o nl via d :
  TP.is_pending (TP.PFormat o nl via) s = true ->
  TP.step s (TP.FormatDone o nl via (Ok d))
  = (let s' := TP.set_phase TP.Preview
                 (TP.set_cardData (Some d) (TP.resolve (TP.PFormat o nl via) s)) in
     if via then TP.set_addingNative false s' else s').
Proof. intros H. unfold TP.step. rewrite H. reflexivity. Qed.

Lemma TP_step_getme_ok s c nl :
  TP.is_pending (TP.PGetMe c) s = true -> Client.truthy_str nl = true ->
  TP.step s (TP.GetMeDone c (Ok nl))
  = TP.formatWithTranslation c nl true (TP.resolve (TP.PGetMe c) s).
Proof. intros H Hn. unfold TP.step. rewrite H. cbv zeta. rewrite Hn. reflexivity. Qed.

Lemma WS_word_enabled s i w :
  nth_error (WS.words s) i = Some w -> WS.checking s = None ->
  mem WS.action_eq_dec (WS.AWord i) (WS.actions s) = true.
Proof.
  intros Hn Hc. apply In_mem_true. unfold WS.actions.
  destruct (WS.words s) as [|x ws] eqn:E; [destruct i; discriminate |].
  rewrite <- E, Hc. apply in_or_app. left. apply In_map_seq.
  rewrite E. exact (nth_error_lt _ _ _ Hn).
Qed.

Lemma TP_mount_translating w d : TP.phase (TP.step (TP.init w d) TP.Mount) = TP.Translating.
Proof. unfold TP.step. destruct (String.eqb (TP.word (TP.init w d)) ""); reflexivity. Qed.

Ltac tp_simpl :=
  cbn [TP.inflight TP.saving TP.set_phase TP.set_error TP.set_translations TP.set_chosen
       TP.set_cardData TP.set_saving TP.set_addingNative TP.set_inflight TP.set_route
       TP.await_call TP.resolve TP.formatWithTranslation TP.loadTranslations] in *.

Lemma TP_accept_inv_step s e : TP.accept_inv s -> TP.accept_inv (TP.step s e).
Proof.
  unfold TP.accept_inv. intros H.
  destruct e as [| a | r | o nl via r | r | id r | c r]; unfold TP.step.
  - destruct (String.eqb (TP.word s) ""); [exact H |].
    tp_simpl. rewrite count_app. simpl. lia.
  - destruct (mem TP.action_eq_dec a (TP.actions s)) eqn:Hen; [| exact H].
    destruct a; cbn [TP.click].
    + destruct (nth_error (TP.translations s) i); [| exact H].
      tp_simpl. rewrite count_app. simpl. lia.
    + exact H.
    + destruct (TP_accept_enabled s Hen) as [Hs _].
      unfold TP.handleAccept. destruct (TP.cardData s); [| exact H].
      tp_simpl. rewrite count_app. rewrite Hs in H. simpl. lia.
    + unfold TP.handleAddNativeTranslation. destruct (TP.chosenTranslation s); [| exact H].
      tp_simpl. rewrite count_app. simpl. lia.
    + exact H.
    + exact H.
    + exact H.
  - destruct (negb (TP.is_pending TP.PTranslate s)); [exact H |].
    assert (Hr := count_remove_first_other TP.pending_eq_dec TP.is_accept_op
                    TP.PTranslate (TP.inflight s) eq_refl).
    destruct r as [ts | m].
    + destruct ts as [| o [| o' ts]]; tp_simpl; try rewrite count_app; simpl; lia.
    + tp_simpl. lia.
  - destruct (negb (TP.is_pending (TP.PFormat o nl via) s)); [exact H |].
    assert (Hr := count_remove_first_other TP.pending_eq_dec TP.is_accept_op
                    (TP.PFormat o nl via) (TP.inflight s) eq_refl).
    destruct r, via; tp_simpl; lia.
  - destruct (TP.is_pending TP.PCreate s) eqn:Hp; [| exact H]. cbn [negb].
    apply mem_true_In in Hp.
    assert (Hr := count_remove_first_in TP.pending_eq_dec TP.is_accept_op
                    TP.PCreate (TP.inflight s) eq_refl Hp).
    destruct (TP.saving s) eqn:Hs; [| lia].
    destruct r; tp_simpl; try rewrite count_app; rewrite ?Hs; simpl; lia.
  - destruct (TP.is_pending (TP.PAccept id) s) eqn:Hp; [| exact H]. cbn [negb].
    apply mem_true_In in Hp.
    assert (Hr := count_remove_first_in TP.pending_eq_dec TP.is_accept_op
                    (TP.PAccept id) (TP.inflight s) eq_refl Hp).
    destruct (TP.saving s) eqn:Hs; [| lia].
    destruct r; tp_simpl; lia.
  - destruct (negb (TP.is_pending (TP.PGetMe c) s)); [exact H |].
    assert (Hr := count_remove_first_other TP.pending_eq_dec TP.is_accept_op
                    (TP.PGetMe c) (TP.inflight s) eq_refl).
    destruct r as [nl | m]; [destruct (Client.truthy_str nl) |];
      tp_simpl; try rewrite count_app; simpl; lia.
Qed.

Lemma TP_accept_inv_run s es : TP.accept_inv s -> TP.accept_inv (TP.run s es).
Proof.
  revert s. induction es as [| e es IH]; intros s H; [exact H |].
  apply IH. apply TP_accept_inv_step. exact H.
Qed.

Lemma count_create_le_accept l :
  length (filter TP.is_create_pending l) <= length (filter TP.is_accept_op l).
Proof. induction l as [| [] l IH]; simpl; lia. Qed.

(** * Helper lemmas of the further properties *)

Lemma set_header_in k v h : In (k, v) (Client.set_header k v h).
Proof. unfold Client.set_header. apply in_or_app. right. left. reflexivity. Qed.

Lemma set_header_inv k v h k' v' :
  In (k', v') (Client.set_header k v h) -> (k' = k /\ v' = v) \/ In (k', v') h.
Proof.
  unfold Client.set_header. intros H. apply in_app_or in H as [H|[H|[]]].
  - right. apply filter_In in H. tauto.
  - left. inversion H. auto.
Qed.

Lemma set_header_other k v h k' v' :
  k' <> k -> In (k', v') (Client.set_header k v h) -> In (k', v') h.
Proof. intros Hk H. apply set_header_inv in H as [[? _]|H]; [congruence | exact H]. Qed.

Lemma set_header_keep k v h k' v' :
  k' <> k -> In (k', v') h -> In (k', v') (Client.set_header k v h).
Proof.
  intros Hk H. unfold Client.set_header. apply in_or_app. left. apply filter_In.
  split; [exact H |]. cbn [fst]. apply String.eqb_neq in Hk. rewrite Hk. reflexivity.
Qed.

Lemma store_remove_idem k s :
  Client.store_remove k (Client.store_remove k s) = Client.store_remove k s.
Proof.
  unfold Client.store_remove. induction s as [|[k' v] s IH]; [reflexivity |].
  cbn [filter fst]. destruct (negb (String.eqb k' k)) eqn:E; cbn [filter fst].
  - rewrite E, IH. reflexivity.
  - exact IH.
Qed.

Lemma store_remove_set k v s :
  Client.store_remove k (Client.store_set k v s) = Client.store_remove k s.
Proof.
  unfold Client.store_set. cbn [Client.store_remove filter fst].
  rewrite String.eqb_refl. cbn [negb]. apply store_remove_idem.
Qed.

Lemma store_get_remove_other k k' s :
  k' <> k -> Client.store_get k' (Client.store_remove k s) = Client.store_get k' s.
Proof.
  intros Hk. induction s as [|[k0 v] s IH]; [reflexivity |].
  unfold Client.store_remove in *. cbn [filter fst].
  destruct (String.eqb k0 k) eqn:E; cbn [negb Client.store_get].
  - apply String.eqb_eq in E. subst k0.
    apply String.eqb_neq in Hk. rewrite Hk. exact IH.
  - rewrite IH. reflexivity.
Qed.

Lemma store_get_set_other k k' v s :
  k' <> k -> Client.store_get k' (Client.store_set k v s) = Client.store_get k' s.
Proof.
  intros Hk. unfold Client.store_set. cbn [Client.store_get].
  apply String.eqb_neq in Hk. rewrite Hk. apply store_get_remove_other.
  apply String.eqb_neq. exact Hk.
Qed.

Lemma setToken_storage_remove tok c :
  Client.store_remove "token" (Client.storage (Client.setToken tok c))
  = Client.store_remove "token" (Client.storage c).
Proof.
  unfold Client.setToken. cbn [Client.storage].
  destruct tok as [t|]; [destruct (Client.truthy_str (Some t)) |];
    rewrite ?store_remove_set, ?store_remove_idem; reflexivity.
Qed.

Lemma WS_click_word s i w :
  nth_error (WS.words s) i = Some w -> WS.checking s = None ->
  WS.step s (WS.Click (WS.AWord i)) = WS.handleWordClick w s.
Proof.
  intros Hn Hc. unfold WS.step. rewrite (WS_word_enabled s i w Hn Hc).
  unfold WS.click. rewrite Hn. reflexivity.
Qed.

Lemma WS_check_done s w r :
  mem string_dec w (WS.checks s) = true ->
  WS.step s (WS.CheckDone w r)
  = (let s := WS.mkState (WS.words s) (WS.deckId s) (WS.checking s) (WS.duplicate s)
                (WS.selectedWord s) (remove_first string_dec w (WS.checks s)) (WS.route s) in
     let s := match r with
              | Ok v =>
                  if WS.is_duplicate v then
                    WS.mkState (WS.words s) (WS.deckId s) (WS.checking s)
                      (Some (WS.mkDup w (match WS.explanation v with
                                         | Some e => if String.eqb e "" then
                                                       "This word may already exist in your deck."
                                                     else e
                                         | None => "This word may already exist in your deck."
                                         end) (WS.duplicate_of_id v)))
                      (WS.selectedWord s) (WS.checks s) (WS.route s)
                  else WS.select w s
              | Err _ => WS.select w s
              end in
     WS.set_checking None s).
Proof. intros H. unfold WS.step. rewrite H. reflexivity. Qed.

Lemma TP_step_mount w d :
  w <> "" -> TP.step (TP.init w d) TP.Mount = TP.loadTranslations (TP.init w d).
Proof. intros Hw. apply String.eqb_neq in Hw. unfold TP.step. cbn [TP.word TP.init]. rewrite Hw. reflexivity. Qed.

Lemma TP_saved_step s e :
  TP.phase s = TP.Saved -> TP.inflight s = [] -> e <> TP.Mount ->
  TP.phase (TP.step s e) = TP.Saved /\ TP.inflight (TP.step s e) = []
  /\ TP.calls (TP.step s e) = TP.calls s.
Proof.
  intros Hp Hi He. destruct e as [| a | r | o nl via r | r | id r | c r]; [congruence | | ..];
    unfold TP.step; unfold TP.is_pending; rewrite ?Hi; cbn [mem existsb negb];
    try (repeat split; assumption).
  destruct (mem TP.action_eq_dec a (TP.actions s)) eqn:Ha; [| repeat split; assumption].
  apply mem_true_In in Ha. unfold TP.actions in Ha. rewrite Hp in Ha.
  destruct (String.eqb (TP.word s) "");
    [destruct Ha as [<-|[]] | destruct Ha as [<-|[<-|[]]]];
    cbn [TP.click]; repeat split; assumption.
Qed.

(** * Claims *)

(** ** C1: retrying Accept *)

(** C1 (counterexample): an Accept in which [createCard] succeeds and
    [acceptCard] fails, then a successful retry, issues two [createCard]
    calls, one per attempt. *)
Lemma C1_retry_creates_second_card :
  let s := TP.run preview_state
             [TP.Click TP.AAccept; TP.CreateDone (Ok "card-1");
              TP.AcceptDone "card-1" (Err "Card not found");
              TP.Click TP.AAccept; TP.CreateDone (Ok "card-2");
              TP.AcceptDone "card-2" (Ok tt)] in
  TP.createCard_calls s = 2 /\ TP.phase s = TP.Saved.
Proof. split; reflexivity. Qed.


(** C1 (amended): each Accept attempt calls [createCard] and then
    [acceptCard] on the id that call returned; the id is not kept.  When
    [acceptCard] fails the page stays in Preview with the same draft, the
    error shown and Accept enabled, and the retry issues a fresh
    [createCard]. *)
Theorem C1_accept_retry_recreates (s : TP.state) (d : CardData) (id m : string)
  (Hw : TP.word s <> "") (Hp : TP.phase s = TP.Preview)
  (Hd : TP.cardData s = Some d) (Hs : TP.saving s = false) :
  let s1 := TP.run s [TP.Click TP.AAccept; TP.CreateDone (Ok id);
                      TP.AcceptDone id (Err m)] in
  TP.createCard_calls s1 = S (TP.createCard_calls s)
  /\ TP.phase s1 = TP.Preview /\ TP.cardData s1 = Some d /\ TP.saving s1 = false
  /\ TP.error s1 = m
  /\ TP.createCard_calls (TP.step s1 (TP.Click TP.AAccept))
     = S (S (TP.createCard_calls s)).
Proof.
  intros s1. unfold s1, TP.run, fold_left.
  rewrite (TP_step_click_accept s d (TP_accept_in s d Hw Hp Hd Hs) Hd).
  rewrite TP_step_create_ok by apply mem_app_last.
  rewrite TP_step_accept_err by apply mem_app_last.
  set (s2 := TP.set_saving false _).
  assert (Hw2 : TP.word s2 <> "") by exact Hw.
  assert (Hp2 : TP.phase s2 = TP.Preview) by exact Hp.
  assert (Hd2 : TP.cardData s2 = Some d) by exact Hd.
  assert (Hs2 : TP.saving s2 = false) by reflexivity.
  rewrite (TP_step_click_accept s2 d (TP_accept_in s2 d Hw2 Hp2 Hd2 Hs2) Hd2).
  unfold TP.createCard_calls. cbn [TP.calls TP.await_call]. unfold s2.
  cbn [TP.calls TP.set_saving TP.set_error TP.resolve TP.set_inflight TP.await_call].
  rewrite !count_app. cbn.
  repeat split; try assumption; lia.
Qed.

(** ** C2: auto-advance on a single candidate *)

(** C2: when the translate call settles with exactly one candidate, the page
    goes straight to Formatting with that candidate and, when formatting
    succeeds, to Preview, without visiting Choosing; with two or more
    candidates it enters Choosing. *)
Theorem C2_auto_advance (s : TP.state) (H : TP.is_pending TP.PTranslate s = true) :
  (forall (c : TranslationOption) (d : CardData),
     let es := [TP.TranslateDone (Ok [c]); TP.FormatDone c None false (Ok d)] in
     TP.phases s es = [TP.Formatting; TP.Preview]
     /\ TP.chosenTranslation (TP.run s es) = Some c
     /\ TP.cardData (TP.run s es) = Some d)
  /\ (forall ts : list TranslationOption, 2 <= length ts ->
        TP.phase (TP.step s (TP.TranslateDone (Ok ts))) = TP.Choosing).
Proof.
  split.
  - intros c d es. unfold es, TP.run, TP.phases, fold_left.
    rewrite (TP_step_translate_ok s [c] H). cbv zeta.
    rewrite TP_step_format_ok by apply mem_app_last.
    cbv zeta. repeat split.
  - intros ts Hlen. rewrite (TP_step_translate_ok s ts H).
    destruct ts as [|a [|b t]]; simpl in Hlen; try lia; reflexivity.
Qed.

(** ** C5: zero candidates *)

(** C5 (counterexample): a translate response with no candidate leaves no
    error message: the page shows Choosing with an empty candidate list. *)
Lemma C5_zero_candidates_no_error :
  let s := TP.run (TP.init "Hund" german_deck) [TP.Mount; TP.TranslateDone (Ok [])] in
  TP.error s = "" /\ TP.phase s = TP.Choosing /\ TP.translations s = [].
Proof. repeat split; reflexivity. Qed.

(** C5 (amended): a translate response with zero candidates puts the page in
    Choosing with an empty candidate list and no error message; the only
    button is Back to Words, which navigates to the word selection page. *)
Theorem C5_zero_candidates_choosing (w d : string) (Hw : w <> "") :
  let s := TP.run (TP.init w d) [TP.Mount; TP.TranslateDone (Ok [])] in
  TP.phase s = TP.Choosing /\ TP.error s = "" /\ TP.translations s = []
  /\ TP.actions s = [TP.ABackToWords]
  /\ TP.route (TP.step s (TP.Click TP.ABackToWords)) = Some "/words".
Proof.
  apply String.eqb_neq in Hw. intros s.
  assert (Hm : TP.step (TP.init w d) TP.Mount = TP.loadTranslations (TP.init w d))
    by (unfold TP.step; cbn [TP.word TP.init]; rewrite Hw; reflexivity).
  assert (Hs : s = TP.set_phase TP.Choosing
                     (TP.set_translations [] (TP.resolve TP.PTranslate
                        (TP.loadTranslations (TP.init w d))))).
  { unfold s, TP.run, fold_left. rewrite Hm.
    rewrite TP_step_translate_ok by apply mem_app_last. reflexivity. }
  assert (Ha : TP.actions s = [TP.ABackToWords]).
  { unfold TP.actions. rewrite Hs. cbn [TP.word TP.phase TP.translations TP.set_phase
      TP.set_translations TP.resolve TP.set_inflight TP.loadTranslations
      TP.await_call TP.set_error TP.init]. rewrite Hw. reflexivity. }
  split; [rewrite Hs; reflexivity |].
  split; [rewrite Hs; reflexivity |].
  split; [rewrite Hs; reflexivity |].
  split; [exact Ha |].
  unfold TP.step. rewrite Ha. reflexivity.
Qed.

(** ** C6: Add Native Translation replaces the draft *)

(** C6: an Add Native Translation whose profile has a native language
    re-enters Formatting with the chosen candidate, and a successful
    formatting makes the new draft the page's only [cardData], replacing the
    previous one whatever it was. *)
Theorem C6_native_draft_replaces (s : TP.state) (c : TranslationOption)
  (nl : option string) (r : CardData)
  (Hg : TP.is_pending (TP.PGetMe c) s = true) (Hn : Client.truthy_str nl = true) :
  let s1 := TP.step s (TP.GetMeDone c (Ok nl)) in
  let s2 := TP.step s1 (TP.FormatDone c nl true (Ok r)) in
  TP.phase s1 = TP.Formatting /\ TP.chosenTranslation s1 = Some c
  /\ TP.is_pending (TP.PFormat c nl true) s1 = true
  /\ TP.cardData s2 = Some r /\ TP.phase s2 = TP.Preview
  /\ TP.addingNative s2 = false.
Proof.
  intros s1 s2.
  assert (H1 : s1 = TP.formatWithTranslation c nl true (TP.resolve (TP.PGetMe c) s))
    by exact (TP_step_getme_ok s c nl Hg Hn).
  assert (Hp : TP.is_pending (TP.PFormat c nl true) s1 = true)
    by (rewrite H1; apply mem_app_last).
  assert (H2 : s2 = TP.set_addingNative false
                      (TP.set_phase TP.Preview (TP.set_cardData (Some r)
                         (TP.resolve (TP.PFormat c nl true) s1))))
    by exact (TP_step_format_ok s1 c nl true r Hp).
  rewrite H2. rewrite H1 at 1 2. cbn.
  repeat split; exact Hp.
Qed.

(** ** C3: protected calls without a credential *)

(** C3 (counterexample): with no credential, [api.listCards()] still issues
    its fetch, without an Authorization header; only the server's 401 then
    clears the credential and redirects to the login page. *)
Lemma C3_fetch_without_token :
  Client.request c_empty "/cards" Client.default_opts cards_401
  = (c_empty,
     [Client.Fetch "/api/cards" [("Content-Type", "application/json")] Client.default_opts;
      Client.ClearToken; Client.RedirectTo "/login"],
     Client.Rejected (Client.Error (Client.MStr "Not authenticated"))).
Proof. reflexivity. Qed.

(** C3 (amended): [request] has no credential check of its own: with no
    credential (a token that is [null] or empty, both falsy) it always
    issues the fetch, omitting the Authorization header.  The credential
    gate is [ProtectedRoute], which redirects to the login page at render
    time, and a 401 answer (outside the login call) clears whatever
    credential the client holds, in memory and in localStorage, and
    redirects to the login page. *)
Theorem C3_request_without_token (c : Client.client) (path : string)
  (o : Client.req_opts) (r : Client.response)
  (Ht : Client.truthy_str (Client.authToken c) = false) :
  ProtectedRoute c = NavigateLogin
  /\ (exists rest, snd (fst (Client.request c path o r))
        = Client.Fetch (Client.API_BASE ++ path)
            (if Client.is_form (Client.rbody o) then Client.headers o
             else Client.set_header "Content-Type" "application/json" (Client.headers o)) o
          :: rest)
  /\ (forall c' txt parsed, String.prefix "/auth/login" path = false ->
        let c'' := fst (fst (Client.request c' path o (Client.Resp 401 txt parsed))) in
        Client.authToken c'' = None
        /\ Client.store_get "token" (Client.storage c'') = None
        /\ Client.authToken (Client.client_init (Client.storage c'')) = None
        /\ exists f, snd (fst (Client.request c' path o (Client.Resp 401 txt parsed)))
                     = [f; Client.ClearToken; Client.RedirectTo "/login"]).
Proof.
  assert (Hh : Client.build_headers (Client.authToken c) o
               = if Client.is_form (Client.rbody o) then Client.headers o
                 else Client.set_header "Content-Type" "application/json" (Client.headers o)).
  { unfold Client.build_headers.
    destruct (Client.authToken c) as [t |]; [rewrite Ht |]; reflexivity. }
  split; [unfold ProtectedRoute, Client.getToken; rewrite Ht; reflexivity |]. split.
  - unfold Client.request. rewrite Hh.
    destruct r as [|status txt parsed]; [eexists; reflexivity |].
    destruct (negb (Client.res_ok status)).
    + destruct ((status =? 401)%Z && negb (String.prefix "/auth/login" path))%bool;
        destruct (Client.thrown_message _ txt); eexists; reflexivity.
    + destruct (status =? 204)%Z; [eexists; reflexivity |].
      destruct parsed; eexists; reflexivity.
  - intros c' txt parsed Hp c''.
    assert (Hc : c'' = Client.setToken None c'
                 /\ snd (fst (Client.request c' path o (Client.Resp 401 txt parsed)))
                    = [Client.Fetch (Client.API_BASE ++ path)
                         (Client.build_headers (Client.authToken c') o) o;
                       Client.ClearToken; Client.RedirectTo "/login"]).
    { unfold c'', Client.request. rewrite Hp. cbn -[Client.thrown_message Client.setToken].
      destruct (Client.thrown_message _ txt); split; reflexivity. }
    destruct Hc as [Hc He]. rewrite Hc.
    unfold Client.setToken. cbn [Client.authToken Client.storage Client.client_init].
    rewrite store_get_remove.
    split; [reflexivity | split; [reflexivity | split; [reflexivity |]]].
    rewrite He. eexists. reflexivity.
Qed.

(** ** C7: the result of [api.translate] *)

(** C7 (counterexample): [api.translate] resolves with a response holding
    zero candidates, and its failure is a generic [Error] carrying the
    server's detail, not a dedicated translation error. *)
Lemma C7_translate_passes_any_count :
  outcome_of (Client.translate c_empty "hund-request"
      (Client.Resp 200 "OK" (Some (JObj [("translations", JArr [])]))))
  = Client.Resolved (Some (JObj [("translations", JArr [])]))
  /\ outcome_of (Client.translate c_empty "hund-request"
      (Client.Resp 500 "Internal Server Error" (Some (JObj [("detail", JStr "LLM unavailable")]))))
  = Client.Rejected (Client.Error (Client.MStr "LLM unavailable")).
Proof. split; reflexivity. Qed.

(** C7 (amended): [api.translate] resolves with the parsed body of any 2xx
    (non-204) response as it is, without checking how many candidates it
    holds.  On a non-2xx response it rejects with a generic [Error]: its
    message is the body's [detail] when that is a non-empty string (a
    truthy [detail] of another type is converted), and the status text
    when the body is not JSON or has no truthy [detail] (a body that is
    not an object has none); a body that is JSON [null] makes the read of
    [detail] throw a [TypeError] instead. *)
Theorem C7_translate_result (c : Client.client) (data : string) :
  (forall status txt v,
     Client.res_ok status = true -> (status =? 204)%Z = false ->
     outcome_of (Client.translate c data (Client.Resp status txt (Some v)))
     = Client.Resolved (Some v))
  /\ (forall status txt kvs d,
        Client.res_ok status = false -> obj_get "detail" kvs = Some (JStr d) -> d <> "" ->
        outcome_of (Client.translate c data (Client.Resp status txt (Some (JObj kvs))))
        = Client.Rejected (Client.Error (Client.MStr d)))
  /\ (forall status txt kvs,
        Client.res_ok status = false -> obj_get "detail" kvs = None ->
        outcome_of (Client.translate c data (Client.Resp status txt (Some (JObj kvs))))
        = Client.Rejected (Client.Error (Client.MStr txt)))
  /\ (forall status txt,
        Client.res_ok status = false ->
        outcome_of (Client.translate c data (Client.Resp status txt None))
        = Client.Rejected (Client.Error (Client.MStr txt)))
  /\ (forall status txt v,
        Client.res_ok status = false -> v <> JNull ->
        (forall d, get_detail v = PVal d -> truthy d = false) ->
        outcome_of (Client.translate c data (Client.Resp status txt (Some v)))
        = Client.Rejected (Client.Error (Client.MStr txt)))
  /\ (forall status txt kvs d,
        Client.res_ok status = false -> obj_get "detail" kvs = Some d -> truthy d = true ->
        (forall s, d <> JStr s) ->
        outcome_of (Client.translate c data (Client.Resp status txt (Some (JObj kvs))))
        = Client.Rejected (Client.Error (Client.MVal d)))
  /\ (forall status txt,
        Client.res_ok status = false ->
        outcome_of (Client.translate c data (Client.Resp status txt (Some JNull)))
        = Client.Rejected Client.TypeError).
Proof.
  unfold outcome_of, Client.translate, Client.request.
  split; [| split; [| split; [| split; [| split; [| split]]]]].
  - intros status txt v Hok H204. rewrite Hok, H204. reflexivity.
  - intros status txt kvs d Hok Hd Hne. rewrite Hok. cbn [negb].
    unfold Client.thrown_message, get_detail. rewrite Hd.
    unfold truthy. apply String.eqb_neq in Hne. rewrite Hne. cbn [negb].
    destruct ((status =? 401)%Z && _)%bool; reflexivity.
  - intros status txt kvs Hok Hd. rewrite Hok. cbn [negb].
    unfold Client.thrown_message, get_detail. rewrite Hd.
    destruct ((status =? 401)%Z && _)%bool; reflexivity.
  - intros status txt Hok. rewrite Hok. cbn [negb].
    assert (Hm : Client.thrown_message (JObj [("detail", JStr txt)]) txt
                 = Some (Client.MStr txt)).
    { unfold Client.thrown_message, get_detail, obj_get, truthy.
      rewrite String.eqb_refl. destruct (String.eqb txt ""); reflexivity. }
    rewrite Hm. destruct ((status =? 401)%Z && _)%bool; reflexivity.
  - intros status txt v Hok Hv Hd. rewrite Hok. cbn [negb].
    assert (Hm : Client.thrown_message v txt = Some (Client.MStr txt)).
    { unfold Client.thrown_message. destruct (get_detail v) as [d | |] eqn:E.
      - rewrite (Hd d eq_refl). reflexivity.
      - reflexivity.
      - destruct v as [| | | | | kvs];
          [congruence | discriminate E .. |
           unfold get_detail in E; destruct (obj_get "detail" kvs); discriminate E]. }
    rewrite Hm. destruct ((status =? 401)%Z && _)%bool; reflexivity.
  - intros status txt kvs d Hok Hd Ht Hs. rewrite Hok. cbn [negb].
    assert (Hm : Client.thrown_message (JObj kvs) txt = Some (Client.MVal d)).
    { unfold Client.thrown_message, get_detail. rewrite Hd, Ht.
      destruct d as [| | | str | |]; try reflexivity. exfalso. exact (Hs str eq_refl). }
    rewrite Hm. destruct ((status =? 401)%Z && _)%bool; reflexivity.
  - intros status txt Hok. rewrite Hok. cbn [negb].
    destruct ((status =? 401)%Z && _)%bool; reflexivity.
Qed.

(** ** C9: [setToken] and the durable store *)

(** C9 (counterexample): [setToken("")] sets the in-memory credential to the
    empty string but removes the stored token, so after a restart the
    credential is null. *)
Lemma C9_empty_token_not_stored :
  let c := Client.setToken (Some "") (Client.client_init [("token", "old")]) in
  Client.authToken c = Some "" /\ Client.store_get "token" (Client.storage c) = None
  /\ Client.authToken (Client.client_init (Client.storage c)) = None.
Proof. repeat split; reflexivity. Qed.

(** C9 (amended): for a non-empty token, [setToken] makes it both the
    in-memory credential and the stored value, and a restart reads it back;
    for null or the empty string the stored token is removed and the
    in-memory credential is set to the argument as given; at start-up the
    in-memory credential is the stored value. *)
Theorem C9_setToken_sync (c : Client.client) :
  (forall t, t <> "" ->
     Client.authToken (Client.setToken (Some t) c) = Some t
     /\ Client.store_get "token" (Client.storage (Client.setToken (Some t) c)) = Some t
     /\ Client.authToken (Client.client_init (Client.storage (Client.setToken (Some t) c)))
        = Some t)
  /\ (forall tok, Client.truthy_str tok = false ->
        Client.authToken (Client.setToken tok c) = tok
        /\ Client.store_get "token" (Client.storage (Client.setToken tok c)) = None
        /\ Client.authToken (Client.client_init (Client.storage (Client.setToken tok c)))
           = None)
  /\ (forall s, Client.authToken (Client.client_init s) = Client.store_get "token" s).
Proof.
  split; [| split].
  - intros t Ht. apply String.eqb_neq in Ht.
    unfold Client.setToken, Client.truthy_str. rewrite Ht. cbn [negb].
    cbn [Client.storage Client.authToken Client.client_init].
    rewrite store_get_set. repeat split.
  - intros tok Htok. unfold Client.setToken. rewrite Htok.
    assert (E : forall st, match tok with
                           | Some t => if false then Client.store_set "token" t st
                                       else Client.store_remove "token" st
                           | None => Client.store_remove "token" st
                           end = Client.store_remove "token" st)
      by (destruct tok; reflexivity).
    cbn [Client.storage Client.authToken Client.client_init]. rewrite E.
    rewrite store_get_remove. repeat split.
  - reflexivity.
Qed.

(** ** C10: error message of a failed request *)

(** C10 (counterexample): a 502 response with an empty status text (as over
    HTTP/2) and an unparseable body throws an [Error] with the empty
    message; a body that parses to [null] makes [error.detail] throw a
    [TypeError]. *)
Lemma C10_empty_status_text :
  outcome_of (Client.listCards c_empty (Client.Resp 502 "" None))
  = Client.Rejected (Client.Error (Client.MStr ""))
  /\ outcome_of (Client.listCards c_empty (Client.Resp 500 "Internal Server Error" (Some JNull)))
  = Client.Rejected Client.TypeError.
Proof. split; reflexivity. Qed.

(** C10 (amended): for a non-2xx response whose body is not parseable JSON,
    or parses to a non-null value with no truthy [detail] field, [request]
    throws an [Error] whose message is the status text, which may be empty;
    a body that parses to [null] throws a [TypeError] instead. *)
Theorem C10_status_text_message (c : Client.client) (path : string)
  (o : Client.req_opts) (status : Z) (txt : string) (parsed : option json)
  (Hok : Client.res_ok status = false) :
  ((parsed = None \/ exists v, parsed = Some v /\ v <> JNull
                             /\ forall d, get_detail v = PVal d -> truthy d = false) ->
   outcome_of (Client.request c path o (Client.Resp status txt parsed))
   = Client.Rejected (Client.Error (Client.MStr txt)))
  /\ (parsed = Some JNull ->
      outcome_of (Client.request c path o (Client.Resp status txt parsed))
      = Client.Rejected Client.TypeError).
Proof.
  unfold outcome_of, Client.request. rewrite Hok. cbn [negb].
  split.
  - intros [-> | [v [-> [Hv Hd]]]].
    + assert (Hm : Client.thrown_message (JObj [("detail", JStr txt)]) txt
                   = Some (Client.MStr txt))
        by (unfold Client.thrown_message; cbn; destruct (String.eqb txt ""); reflexivity).
      destruct ((status =? 401)%Z && _)%bool; rewrite Hm; reflexivity.
    + assert (Hm : Client.thrown_message v txt = Some (Client.MStr txt)).
      { unfold Client.thrown_message. destruct (get_detail v) eqn:E.
        - rewrite (Hd v0 eq_refl). reflexivity.
        - reflexivity.
        - destruct v; try discriminate; [congruence |].
          unfold get_detail in E. destruct (obj_get "detail" kvs); discriminate. }
      destruct ((status =? 401)%Z && _)%bool; rewrite Hm; reflexivity.
  - intros ->. destruct ((status =? 401)%Z && _)%bool; reflexivity.
Qed.

(** ** C4: a failing duplicate check does not block *)

(** C4: with a deck selected, a tap on a word starts the duplicate check;
    when that call fails, the page selects the tapped word, navigates to the
    translate page (which starts in Translating), clears the checking state
    and shows no duplicate warning. *)
Theorem C4_duplicate_check_failure_proceeds (s : WS.state) (i : nat) (w m : string)
  (Hn : nth_error (WS.words s) i = Some w) (Hc : WS.checking s = None)
  (Hd : WS.deckId s <> "") :
  let s1 := WS.step s (WS.Click (WS.AWord i)) in
  let s2 := WS.step s1 (WS.CheckDone w (Err m)) in
  WS.checking s1 = Some w
  /\ WS.selectedWord s2 = w /\ WS.route s2 = Some "/translate"
  /\ WS.checking s2 = None /\ WS.duplicate s2 = None
  /\ TP.phase (TP.step (TP.init (WS.selectedWord s2) (WS.deckId s2)) TP.Mount)
     = TP.Translating.
Proof.
  intros s1 s2.
  assert (H1 : s1 = WS.mkState (WS.words s) (WS.deckId s) (Some w) None
                      (WS.selectedWord s) (WS.checks s ++ [w]) (WS.route s)).
  { unfold s1, WS.step. rewrite (WS_word_enabled s i w Hn Hc).
    unfold WS.click. rewrite Hn. unfold WS.handleWordClick.
    apply String.eqb_neq in Hd. rewrite Hd. reflexivity. }
  assert (H2 : s2 = WS.set_checking None
                      (WS.select w (WS.mkState (WS.words s1) (WS.deckId s1) (WS.checking s1)
                         (WS.duplicate s1) (WS.selectedWord s1)
                         (remove_first string_dec w (WS.checks s1)) (WS.route s1)))).
  { unfold s2, WS.step. rewrite H1. cbn [WS.checks]. rewrite mem_app_last. reflexivity. }
  rewrite H2, H1. cbn. repeat split. apply TP_mount_translating.
Qed.

(** ** C8: calls in flight *)

(** C8 (counterexample): in Preview, a click on Accept and then on Add Native
    Translation leaves [createCard] and [getMe] in flight together. *)
Lemma C8_accept_and_native_in_flight :
  let s := TP.run preview_state [TP.Click TP.AAccept; TP.Click TP.AAddNative] in
  TP.inflight s = [TP.PCreate; TP.PGetMe hund_dog]
  /\ TP.saving s = true /\ TP.addingNative s = true.
Proof. repeat split; reflexivity. Qed.

(** C8 (amended): each button is disabled only while its own call is
    pending.  Accept is ignored while its [createCard]/[acceptCard] is
    pending, so at most one [createCard] is ever in flight; Add Native
    Translation is ignored while its call is pending; word taps are ignored
    while a duplicate check is pending.  Accept and Add Native Translation do
    not exclude each other. *)
Theorem C8_single_accept_in_flight (s : TP.state) (es : list TP.event)
  (H : TP.accept_inv s) :
  length (filter TP.is_create_pending (TP.inflight (TP.run s es))) <= 1
  /\ (TP.saving (TP.run s es) = true ->
      TP.step (TP.run s es) (TP.Click TP.AAccept) = TP.run s es)
  /\ (forall t, TP.addingNative t = true -> TP.step t (TP.Click TP.AAddNative) = t)
  /\ (forall (w : WS.state) (i : nat), WS.checking w <> None ->
        WS.step w (WS.Click (WS.AWord i)) = w).
Proof.
  assert (Hi := TP_accept_inv_run s es H). unfold TP.accept_inv in Hi.
  split; [| split; [| split]].
  - pose proof (count_create_le_accept (TP.inflight (TP.run s es))).
    destruct (TP.saving (TP.run s es)); lia.
  - intros Hs. unfold TP.step.
    destruct (mem TP.action_eq_dec TP.AAccept (TP.actions (TP.run s es))) eqn:Hen;
      [| reflexivity].
    destruct (TP_accept_enabled _ Hen) as [Hf _]. congruence.
  - intros t Ht. unfold TP.step.
    destruct (mem TP.action_eq_dec TP.AAddNative (TP.actions t)) eqn:Hen; [| reflexivity].
    exfalso. apply mem_true_In in Hen. unfold TP.actions in Hen.
    destruct (String.eqb (TP.word t) ""); [simpl in Hen; destruct Hen as [Hen|[]]; discriminate |].
    destruct (TP.phase t); simpl in Hen; try tauto.
    + apply in_app_or in Hen as [Hen|[Hen|[]]]; [| discriminate].
      apply in_map_iff in Hen as [? [? _]]. discriminate.
    + destruct (TP.cardData t); [| tauto]. rewrite Ht in Hen.
      destruct (TP.saving t); simpl in Hen; intuition discriminate.
    + destruct Hen as [Hen|[Hen|[]]]; discriminate.
  - intros w i Hc. unfold WS.step.
    destruct (mem WS.action_eq_dec (WS.AWord i) (WS.actions w)) eqn:Hen; [| reflexivity].
    exfalso. apply mem_true_In in Hen. unfold WS.actions in Hen.
    destruct (WS.words w); [simpl in Hen; destruct Hen as [Hen|[]]; discriminate |].
    destruct (WS.checking w); [| congruence]. simpl in Hen.
    destruct (WS.duplicate w); simpl in Hen; intuition discriminate.
Qed.

(** * Further properties of the code *)

(** X1: the headers [request] sends carry [Authorization: Bearer t] exactly when the token is a non-empty [t] (otherwise only what the caller passed), and [Content-Type: application/json] unless the body is a FormData. *)
Theorem X1_request_headers (tok : option string) (o : Client.req_opts) :
  (forall t, tok = Some t -> t <> "" ->
     In ("Authorization", "Bearer " ++ t) (Client.build_headers tok o))
  /\ (Client.truthy_str tok = false -> forall v,
        In ("Authorization", v) (Client.build_headers tok o) ->
        In ("Authorization", v) (Client.headers o))
  /\ (Client.is_form (Client.rbody o) = false ->
        In ("Content-Type", "application/json") (Client.build_headers tok o))
  /\ (Client.is_form (Client.rbody o) = true -> forall v,
        In ("Content-Type", v) (Client.build_headers tok o) ->
        In ("Content-Type", v) (Client.headers o)).
Proof.
  unfold Client.build_headers.
  split; [| split; [| split]].
  - intros t -> Ht. apply String.eqb_neq in Ht. cbn [Client.truthy_str]. rewrite Ht. cbn [negb].
    destruct (Client.is_form (Client.rbody o)).
    + apply set_header_in.
    + apply set_header_keep; [discriminate |]. apply set_header_in.
  - intros Ht v H. destruct tok as [t|]; [rewrite Ht in H |];
      destruct (Client.is_form (Client.rbody o)); try exact H;
      apply set_header_other in H; [exact H | discriminate | exact H | discriminate].
  - intros Hf. rewrite Hf. apply set_header_in.
  - intros Hf v H. rewrite Hf in H.
    destruct tok as [t|]; [destruct (Client.truthy_str (Some t)) |]; try exact H.
    apply set_header_other in H; [exact H | discriminate].
Qed.

(** X2: a 401 answer to a path under [/auth/login] neither clears the token nor redirects: the client is unchanged and the only effect is the fetch. *)
Theorem X2_login_401_keeps_token (c : Client.client) (path : string) (o : Client.req_opts)
  (txt : string) (parsed : option json)
  (Hp : String.prefix "/auth/login" path = true) :
  fst (fst (Client.request c path o (Client.Resp 401 txt parsed))) = c
  /\ snd (fst (Client.request c path o (Client.Resp 401 txt parsed)))
     = [Client.Fetch (Client.API_BASE ++ path) (Client.build_headers (Client.authToken c) o) o].
Proof.
  unfold Client.request. rewrite Hp. cbn -[Client.thrown_message Client.build_headers].
  destruct (Client.thrown_message _ txt); split; reflexivity.
Qed.

(** X3: [request] changes the client state only on a 401 answer to a path outside [/auth/login], and then only by [setToken(null)]. *)
Theorem X3_request_only_401_changes_client (c : Client.client) (path : string)
  (o : Client.req_opts) (r : Client.response) :
  fst (fst (Client.request c path o r)) = c
  \/ (exists txt parsed, r = Client.Resp 401 txt parsed
        /\ String.prefix "/auth/login" path = false
        /\ fst (fst (Client.request c path o r)) = Client.setToken None c).
Proof.
  unfold Client.request. destruct r as [|status txt parsed]; [left; reflexivity |].
  destruct (negb (Client.res_ok status)) eqn:Hok.
  - destruct ((status =? 401)%Z && negb (String.prefix "/auth/login" path))%bool eqn:H401.
    + right. apply andb_true_iff in H401 as [Hs Hp]. apply Z.eqb_eq in Hs. subst status.
      apply negb_true_iff in Hp.
      exists txt, parsed. split; [reflexivity | split; [exact Hp |]].
      destruct (Client.thrown_message _ txt); reflexivity.
    + left. destruct (Client.thrown_message _ txt); reflexivity.
  - left. destruct (status =? 204)%Z; [reflexivity |]. destruct parsed; reflexivity.
Qed.

(** X5: a non-2xx answer whose JSON body has a non-empty string [detail] rejects with an Error carrying that detail verbatim. *)
Theorem X5_error_detail_verbatim (c : Client.client) (path : string) (o : Client.req_opts)
  (status : Z) (txt : string) (kvs : list (string * json)) (d : string)
  (Hok : Client.res_ok status = false) (Hd : obj_get "detail" kvs = Some (JStr d))
  (Hne : d <> "") :
  snd (Client.request c path o (Client.Resp status txt (Some (JObj kvs))))
  = Client.Rejected (Client.Error (Client.MStr d)).
Proof.
  unfold Client.request. rewrite Hok. cbn [negb].
  assert (Hm : Client.thrown_message (JObj kvs) txt = Some (Client.MStr d)).
  { unfold Client.thrown_message, get_detail. rewrite Hd. unfold truthy.
    apply String.eqb_neq in Hne. rewrite Hne. reflexivity. }
  destruct ((status =? 401)%Z && _)%bool; rewrite Hm; reflexivity.
Qed.

(** X6: [setToken] is last-write-wins: a second call completely overrides the first, in memory and in localStorage. *)
Theorem X6_setToken_last_write_wins (a b : option string) (c : Client.client) :
  Client.setToken b (Client.setToken a c) = Client.setToken b c.
Proof.
  unfold Client.setToken at 1 3. cbn [Client.storage].
  assert (E := setToken_storage_remove a c).
  unfold Client.store_set. rewrite E.
  destruct b as [t|]; [destruct (Client.truthy_str (Some t)) |]; rewrite ?E; reflexivity.
Qed.

(** X7: the token and the selected deck live under independent localStorage keys: [setToken] leaves the selected deck and [setSelectedDeckId] leaves the token untouched. *)
Theorem X7_token_and_deck_keys_independent (tok : option string) (c : Client.client)
  (id : string) (st : Client.store) :
  Client.store_get "selectedDeckId" (Client.storage (Client.setToken tok c))
  = Client.store_get "selectedDeckId" (Client.storage c)
  /\ App.init_deck (Client.storage (Client.setToken tok c)) = App.init_deck (Client.storage c)
  /\ Client.store_get "token" (snd (App.setSelectedDeckId id st)) = Client.store_get "token" st.
Proof.
  assert (H : Client.store_get "selectedDeckId" (Client.storage (Client.setToken tok c))
              = Client.store_get "selectedDeckId" (Client.storage c)).
  { unfold Client.setToken. cbn [Client.storage].
    destruct tok as [t|]; [destruct (Client.truthy_str (Some t)) |];
      first [apply store_get_set_other | apply store_get_remove_other]; discriminate. }
  split; [exact H | split].
  - unfold App.init_deck. rewrite H. reflexivity.
  - unfold App.setSelectedDeckId. cbn [snd]. apply store_get_set_other. discriminate.
Qed.

(** X8: selecting a deck in the App stores it, and a reload of the App restores exactly that deck id. *)
Theorem X8_deck_selection_round_trip (id : string) (st : Client.store) :
  fst (App.setSelectedDeckId id st) = id
  /\ App.init_deck (snd (App.setSelectedDeckId id st)) = id.
Proof.
  split; [reflexivity |].
  unfold App.init_deck, App.setSelectedDeckId. cbn [snd].
  rewrite store_get_set. destruct (String.eqb id "") eqn:E; [| reflexivity].
  apply String.eqb_eq in E. symmetry. exact E.
Qed.

(** X9: logging out clears the token in memory and in localStorage, sends the browser to /login, makes the protected routes redirect to /login, survives a reload, keeps the selected deck, and later requests carry no Authorization header. *)
Theorem X9_logout (c : Client.client) :
  let '(c', href) := App.logout c in
  href = "/login"
  /\ ProtectedRoute c' = NavigateLogin
  /\ Client.store_get "token" (Client.storage c') = None
  /\ Client.authToken (Client.client_init (Client.storage c')) = None
  /\ App.init_deck (Client.storage c') = App.init_deck (Client.storage c)
  /\ (forall o, Client.build_headers (Client.authToken c') o
                = Client.build_headers None o).
Proof.
  unfold App.logout.
  split; [reflexivity | split; [reflexivity | split; [| split; [| split]]]].
  - apply store_get_remove.
  - apply store_get_remove.
  - apply (proj1 (proj2 (X7_token_and_deck_keys_independent None c "" []))).
  - intros o. reflexivity.
Qed.

(** X11: with no words the word selection page offers only Back to Camera, and a word tap is ignored. *)
Theorem X11_no_words_only_back (d sel : string) :
  WS.actions (WS.init [] d sel) = [WS.ABackToCamera]
  /\ forall i, WS.step (WS.init [] d sel) (WS.Click (WS.AWord i)) = WS.init [] d sel.
Proof. split; reflexivity. Qed.

(** X12: without a selected deck a word tap selects the word and navigates to /translate without any duplicate check. *)
Theorem X12_no_deck_selects_directly (s : WS.state) (i : nat) (w : string)
  (Hn : nth_error (WS.words s) i = Some w) (Hc : WS.checking s = None)
  (Hd : WS.deckId s = "") :
  let s' := WS.step s (WS.Click (WS.AWord i)) in
  WS.selectedWord s' = w /\ WS.route s' = Some "/translate"
  /\ WS.checks s' = WS.checks s /\ WS.checking s' = None.
Proof.
  intros s'. unfold s'. rewrite (WS_click_word s i w Hn Hc).
  unfold WS.handleWordClick. rewrite Hd. cbn. repeat split. exact Hc.
Qed.

(** X13: a duplicate-check verdict ends the check; a duplicate verdict shows a warning and does not navigate, the warning text being the explanation when it is non-empty and exactly "This word may already exist in your deck." when the explanation is empty or absent; a non-duplicate verdict selects the word and navigates to /translate. *)
Theorem X13_check_verdict (s : WS.state) (w : string) (v : WS.verdict)
  (Hp : mem string_dec w (WS.checks s) = true) :
  let s' := WS.step s (WS.CheckDone w (Ok v)) in
  WS.checking s' = None
  /\ (WS.is_duplicate v = true ->
        WS.selectedWord s' = WS.selectedWord s /\ WS.route s' = WS.route s
        /\ exists e, WS.duplicate s' = Some (WS.mkDup w e (WS.duplicate_of_id v))
                     /\ e <> ""
                     /\ (forall x, WS.explanation v = Some x -> x <> "" -> e = x)
                     /\ ((WS.explanation v = None \/ WS.explanation v = Some "") ->
                         e = "This word may already exist in your deck."))
  /\ (WS.is_duplicate v = false ->
        WS.selectedWord s' = w /\ WS.route s' = Some "/translate").
Proof.
  intros s'. unfold s'. rewrite (WS_check_done s w (Ok v) Hp). cbv zeta.
  destruct (WS.is_duplicate v) eqn:Hv.
  - split; [reflexivity |]. split; [| intros; discriminate].
    intros _. split; [reflexivity | split; [reflexivity |]].
    eexists. split; [reflexivity |].
    destruct (WS.explanation v) as [x|].
    + destruct (String.eqb x "") eqn:Ex.
      * split; [discriminate |]. split; [| intros _; reflexivity].
        intros y Hy Hne. inversion Hy; subst.
        apply String.eqb_eq in Ex. contradiction.
      * apply String.eqb_neq in Ex. split; [exact Ex |]. split; [intros y Hy _; congruence |].
        intros [H | H]; [discriminate H | inversion H; contradiction].
    + split; [discriminate | split; [intros; discriminate | intros _; reflexivity]].
  - split; [reflexivity |]. split; [intros; discriminate |].
    intros _. split; reflexivity.
Qed.

(** X14: with a duplicate warning shown, Proceed Anyway selects the warned word and navigates to /translate, while Choose Different clears the warning and stays. *)
Theorem X14_duplicate_choice (s : WS.state) (d : WS.dup)
  (Hw : WS.words s <> []) (Hd : WS.duplicate s = Some d) :
  WS.selectedWord (WS.step s (WS.Click WS.AProceed)) = WS.dup_word d
  /\ WS.route (WS.step s (WS.Click WS.AProceed)) = Some "/translate"
  /\ WS.duplicate (WS.step s (WS.Click WS.AChooseDifferent)) = None
  /\ WS.route (WS.step s (WS.Click WS.AChooseDifferent)) = WS.route s
  /\ WS.selectedWord (WS.step s (WS.Click WS.AChooseDifferent)) = WS.selectedWord s.
Proof.
  assert (Hin : forall a, In a [WS.AProceed; WS.AChooseDifferent] ->
                  mem WS.action_eq_dec a (WS.actions s) = true).
  { intros a Ha. apply In_mem_true. unfold WS.actions.
    destruct (WS.words s); [congruence |]. rewrite Hd.
    apply in_or_app. right. apply in_or_app. left. exact Ha. }
  unfold WS.step.
  rewrite (Hin WS.AProceed (or_introl eq_refl)).
  rewrite (Hin WS.AChooseDifferent (or_intror (or_introl eq_refl))).
  cbn [WS.click]. rewrite Hd. repeat split.
Qed.

(** X15: verdicts are not cached: tapping the same word again after Choose Different issues a new duplicate check. *)
Theorem X15_verdict_not_cached (s : WS.state) (i : nat) (w : string) (v : WS.verdict)
  (Hn : nth_error (WS.words s) i = Some w) (Hc : WS.checking s = None)
  (Hd : WS.deckId s <> "") (Hv : WS.is_duplicate v = true) :
  let s' := WS.run s [WS.Click (WS.AWord i); WS.CheckDone w (Ok v);
                      WS.Click WS.AChooseDifferent; WS.Click (WS.AWord i)] in
  WS.checking s' = Some w /\ WS.duplicate s' = None
  /\ count_occ string_dec (WS.checks s') w = S (count_occ string_dec (WS.checks s) w).
Proof.
  intros s'.
  set (l := WS.checks s).
  set (s1 := WS.mkState (WS.words s) (WS.deckId s) (Some w) None (WS.selectedWord s)
               (l ++ [w]) (WS.route s)).
  assert (H1 : WS.step s (WS.Click (WS.AWord i)) = s1).
  { rewrite (WS_click_word s i w Hn Hc). unfold WS.handleWordClick.
    apply String.eqb_neq in Hd. rewrite Hd. reflexivity. }
  assert (H2 : exists dd, WS.step s1 (WS.CheckDone w (Ok v))
                 = WS.mkState (WS.words s) (WS.deckId s) None (Some dd) (WS.selectedWord s)
                     (remove_first string_dec w (l ++ [w])) (WS.route s)).
  { rewrite WS_check_done by (apply mem_app_last). cbv zeta. rewrite Hv.
    eexists. reflexivity. }
  destruct H2 as [dd H2].
  set (s2 := WS.mkState _ _ None (Some dd) _ _ _) in H2.
  set (s3 := WS.mkState (WS.words s) (WS.deckId s) None None (WS.selectedWord s)
               (remove_first string_dec w (l ++ [w])) (WS.route s)).
  assert (H3 : WS.step s2 (WS.Click WS.AChooseDifferent) = s3).
  { unfold WS.step.
    assert (Hcd : mem WS.action_eq_dec WS.AChooseDifferent (WS.actions s2) = true).
    { apply In_mem_true. unfold WS.actions. cbn [s2 WS.words WS.checking WS.duplicate].
      destruct (WS.words s); [destruct i; discriminate |].
      apply in_or_app. right. apply in_or_app. left. right. left. reflexivity. }
    rewrite Hcd. reflexivity. }
  assert (H4 : WS.step s3 (WS.Click (WS.AWord i))
               = WS.mkState (WS.words s) (WS.deckId s) (Some w) None (WS.selectedWord s)
                   (remove_first string_dec w (l ++ [w]) ++ [w]) (WS.route s)).
  { rewrite (WS_click_word s3 i w Hn eq_refl). unfold WS.handleWordClick.
    cbn [s3 WS.deckId]. apply String.eqb_neq in Hd. rewrite Hd. reflexivity. }
  assert (Hs' : s' = WS.mkState (WS.words s) (WS.deckId s) (Some w) None (WS.selectedWord s)
                       (remove_first string_dec w (l ++ [w]) ++ [w]) (WS.route s)).
  { unfold s', WS.run, fold_left. rewrite H1, H2, H3, H4. reflexivity. }
  rewrite Hs'. cbn [WS.checking WS.duplicate WS.checks].
  split; [reflexivity | split; [reflexivity |]].
  assert (Hr : forall l0, count_occ string_dec (remove_first string_dec w (l0 ++ [w])) w
                          = count_occ string_dec l0 w).
  { induction l0 as [|x l0 IH]; cbn [app remove_first].
    - destruct (string_dec w w); [reflexivity | congruence].
    - destruct (string_dec w x) as [<-|Hne].
      + rewrite count_occ_app. cbn [count_occ].
        destruct (string_dec w w); [lia | congruence].
      + cbn [count_occ]. destruct (string_dec x w); [congruence |]. exact IH. }
  rewrite count_occ_app, Hr. cbn [count_occ]. destruct (string_dec w w); [lia | congruence].
Qed.

(** X19: the CardsPage banner is shown exactly when some card is pending sync; its count is the number of such cards and the noun is singular exactly for one card. *)
Theorem X19_cards_pending_banner (cs : list Cards.card) :
  (Cards.pending_banner cs = None <->
   forall c, In c cs -> Cards.status c <> "pending_sync")
  /\ (forall n label, Cards.pending_banner cs = Some (n, label) ->
        n = Cards.pendingCount cs /\ 1 <= n <= length cs
        /\ (label = "card" <-> n = 1)).
Proof.
  unfold Cards.pending_banner. split.
  - destruct (Nat.ltb 0 (Cards.pendingCount cs)) eqn:E.
    + split; [discriminate |]. intros H. exfalso.
      apply Nat.ltb_lt in E. unfold Cards.pendingCount in E.
      destruct (filter _ cs) as [|c l] eqn:Ef; [cbn in E; lia |].
      assert (Hc : In c (filter (fun c => String.eqb (Cards.status c) "pending_sync") cs))
        by (rewrite Ef; left; reflexivity).
      apply filter_In in Hc as [Hc Hs]. apply String.eqb_eq in Hs. exact (H c Hc Hs).
    + split; [intros _ | reflexivity]. intros c Hc Hs.
      apply Nat.ltb_ge in E. unfold Cards.pendingCount in E.
      assert (In c (filter (fun c => String.eqb (Cards.status c) "pending_sync") cs))
        by (apply filter_In; split; [exact Hc | apply String.eqb_eq; exact Hs]).
      destruct (filter _ cs); [contradiction | cbn in E; lia].
  - intros n label H.
    destruct (Nat.ltb 0 (Cards.pendingCount cs)) eqn:E; [| discriminate].
    inversion H; subst. apply Nat.ltb_lt in E.
    split; [reflexivity | split].
    + split; [lia |]. unfold Cards.pendingCount. apply filter_length_le.
    + destruct (Nat.eqb (Cards.pendingCount cs) 1) eqn:E1.
      * apply Nat.eqb_eq in E1. split; auto.
      * apply Nat.eqb_neq in E1. split; [discriminate | intros; contradiction].
Qed.

(** X20: a failed translation request leaves the page in the choosing phase with the error shown, no candidates, and only Back to Words enabled. *)
Theorem X20_translate_failure_recovers (w d m : string) (Hw : w <> "") :
  let s := TP.run (TP.init w d) [TP.Mount; TP.TranslateDone (Err m)] in
  TP.phase s = TP.Choosing /\ TP.error s = m /\ TP.translations s = []
  /\ TP.actions s = [TP.ABackToWords] /\ TP.calls s = [TP.CallTranslate w d].
Proof.
  intros s.
  assert (Hs : s = TP.set_phase TP.Choosing (TP.set_error m
                     (TP.resolve TP.PTranslate (TP.loadTranslations (TP.init w d))))).
  { assert (Hp : TP.is_pending TP.PTranslate (TP.loadTranslations (TP.init w d)) = true)
      by apply mem_app_last.
    unfold s, TP.run. cbn [fold_left]. rewrite (TP_step_mount w d Hw).
    unfold TP.step. rewrite Hp. reflexivity. }
  apply String.eqb_neq in Hw.
  rewrite Hs. split; [reflexivity | split; [reflexivity | split; [reflexivity | split]]].
  - unfold TP.actions. cbn. rewrite Hw. reflexivity.
  - reflexivity.
Qed.

(** X21: a failed card formatting, whether started by choosing a candidate or by Add Native Translation, returns to the choosing phase with the error shown, keeps the candidates and the previous draft, makes no other call, and re-enables Add Native Translation when that started it. *)
Theorem X21_format_failure_back_to_choosing (s : TP.state) (o : TranslationOption)
  (nl : option string) (via : bool) (m : string)
  (Hp : TP.is_pending (TP.PFormat o nl via) s = true) :
  let s' := TP.step s (TP.FormatDone o nl via (Err m)) in
  TP.phase s' = TP.Choosing /\ TP.error s' = m
  /\ TP.translations s' = TP.translations s /\ TP.cardData s' = TP.cardData s
  /\ TP.calls s' = TP.calls s
  /\ TP.addingNative s' = (if via then false else TP.addingNative s).
Proof. intros s'. unfold s', TP.step. rewrite Hp. destruct via; repeat split. Qed.

(** X22: choosing a listed candidate records it, clears the error, enters the formatting phase and issues exactly one formatCard call for it without a native language. *)
Theorem X22_choose_candidate (s : TP.state) (i : nat) (o : TranslationOption)
  (Hw : TP.word s <> "") (Hp : TP.phase s = TP.Choosing)
  (Hn : nth_error (TP.translations s) i = Some o) :
  let s' := TP.step s (TP.Click (TP.AChoose i)) in
  TP.phase s' = TP.Formatting /\ TP.chosenTranslation s' = Some o /\ TP.error s' = ""
  /\ TP.is_pending (TP.PFormat o None false) s' = true
  /\ TP.calls s' = List.app (TP.calls s) [TP.CallFormat (TP.deckId s) o None].
Proof.
  intros s'.
  assert (He : mem TP.action_eq_dec (TP.AChoose i) (TP.actions s) = true).
  { apply In_mem_true. unfold TP.actions. apply String.eqb_neq in Hw. rewrite Hw, Hp.
    apply in_or_app. left. apply In_map_seq. exact (nth_error_lt _ _ _ Hn). }
  assert (Hs : s' = TP.formatWithTranslation o None false s).
  { unfold s', TP.step. rewrite He. cbn [TP.click]. rewrite Hn. reflexivity. }
  rewrite Hs. split; [reflexivity | split; [reflexivity | split; [reflexivity | split]]].
  - apply mem_app_last.
  - reflexivity.
Qed.

(** X23: a failed createCard keeps the phase and the draft, shows the error and re-enables Accept; it issues no acceptCard call. *)
Theorem X23_create_failure_keeps_draft (s : TP.state) (m : string)
  (Hp : TP.is_pending TP.PCreate s = true) :
  let s' := TP.step s (TP.CreateDone (Err m)) in
  TP.phase s' = TP.phase s /\ TP.cardData s' = TP.cardData s /\ TP.error s' = m
  /\ TP.saving s' = false /\ TP.calls s' = TP.calls s.
Proof. intros s'. unfold s', TP.step. rewrite Hp. repeat split. Qed.

(** X24: when the user has no native language, Add Native Translation shows the settings hint and re-enables itself, leaving phase, draft and calls unchanged. *)
Theorem X24_native_language_missing (s : TP.state) (c : TranslationOption)
  (nl : option string)
  (Hp : TP.is_pending (TP.PGetMe c) s = true) (Hn : Client.truthy_str nl = false) :
  let s' := TP.step s (TP.GetMeDone c (Ok nl)) in
  TP.error s' = "Please set your native language in Settings first."
  /\ TP.addingNative s' = false /\ TP.phase s' = TP.phase s
  /\ TP.cardData s' = TP.cardData s /\ TP.calls s' = TP.calls s.
Proof. intros s'. unfold s', TP.step. rewrite Hp. cbv zeta. rewrite Hn. repeat split. Qed.

(** X25: once saved with nothing in flight, the page stays saved and issues no further call under any events short of a remount. *)
Theorem X25_saved_is_final (s : TP.state) (es : list TP.event)
  (Hp : TP.phase s = TP.Saved) (Hi : TP.inflight s = []) (Hm : ~ In TP.Mount es) :
  TP.phase (TP.run s es) = TP.Saved /\ TP.calls (TP.run s es) = TP.calls s.
Proof.
  revert s Hp Hi. induction es as [| e es IH]; intros s Hp Hi; [split; [exact Hp | reflexivity] |].
  cbn [TP.run fold_left].
  assert (He : e <> TP.Mount) by (intros ->; apply Hm; left; reflexivity).
  destruct (TP_saved_step s e Hp Hi He) as [Hp' [Hi' Hc']].
  destruct (IH (fun H => Hm (or_intror H)) (TP.step s e) Hp' Hi') as [H1 H2].
  unfold TP.run in H1, H2. split; [exact H1 | rewrite H2; exact Hc'].
Qed.

(** X26: a native-translation request still in flight when the card is saved reopens the page: it goes back to formatting and then to a preview whose Accept button is enabled again. *)
Theorem X26_late_native_reopens_saved (s : TP.state) (c : TranslationOption)
  (nl : option string) (d : CardData)
  (Hw : TP.word s <> "") (Hp : TP.phase s = TP.Saved) (Hs : TP.saving s = false)
  (Hg : TP.is_pending (TP.PGetMe c) s = true) (Hn : Client.truthy_str nl = true) :
  let s1 := TP.step s (TP.GetMeDone c (Ok nl)) in
  let s2 := TP.step s1 (TP.FormatDone c nl true (Ok d)) in
  TP.phase s1 = TP.Formatting /\ TP.phase s2 = TP.Preview
  /\ mem TP.action_eq_dec TP.AAccept (TP.actions s2) = true.
Proof.
  intros s1 s2.
  assert (H1 : s1 = TP.formatWithTranslation c nl true (TP.resolve (TP.PGetMe c) s))
    by exact (TP_step_getme_ok s c nl Hg Hn).
  assert (Hf : TP.is_pending (TP.PFormat c nl true) s1 = true)
    by (rewrite H1; apply mem_app_last).
  assert (H2 : s2 = TP.set_addingNative false
                      (TP.set_phase TP.Preview (TP.set_cardData (Some d)
                         (TP.resolve (TP.PFormat c nl true) s1))))
    by exact (TP_step_format_ok s1 c nl true d Hf).
  split; [rewrite H1; reflexivity |]. split; [rewrite H2; reflexivity |].
  apply (TP_accept_in s2 d).
  - rewrite H2, H1. exact Hw.
  - rewrite H2. reflexivity.
  - rewrite H2. reflexivity.
  - rewrite H2, H1. exact Hs.
Qed.

(** X27: Reject from the preview navigates to /words and makes no call. *)
Theorem X27_reject_makes_no_call (s : TP.state) (d : CardData)
  (Hw : TP.word s <> "") (Hp : TP.phase s = TP.Preview) (Hd : TP.cardData s = Some d) :
  let s' := TP.step s (TP.Click TP.AReject) in
  TP.route s' = Some "/words" /\ TP.calls s' = TP.calls s.
Proof.
  intros s'.
  assert (He : mem TP.action_eq_dec TP.AReject (TP.actions s) = true).
  { apply In_mem_true. unfold TP.actions. apply String.eqb_neq in Hw. rewrite Hw, Hp, Hd.
    apply in_or_app. right. apply in_or_app. right. left. reflexivity. }
  unfold s', TP.step. rewrite He. repeat split.
Qed.

(** X28: with a single candidate, mount, formatting, Accept, createCard and acceptCard lead to the saved phase with exactly the calls translate, formatCard, createCard, acceptCard in that order. *)
Theorem X28_one_candidate_accept_flow (w d id : string) (c : TranslationOption)
  (card : CardData) (Hw : w <> "") :
  let s := TP.run (TP.init w d)
             [TP.Mount; TP.TranslateDone (Ok [c]); TP.FormatDone c None false (Ok card);
              TP.Click TP.AAccept; TP.CreateDone (Ok id); TP.AcceptDone id (Ok tt)] in
  TP.phase s = TP.Saved /\ TP.saving s = false
  /\ TP.calls s = [TP.CallTranslate w d; TP.CallFormat d c None;
                   TP.CallCreate d (note_type_id card) (fields card) w; TP.CallAccept id].
Proof.
  intros s.
  set (s1 := TP.loadTranslations (TP.init w d)).
  assert (E1 : TP.step (TP.init w d) TP.Mount = s1) by exact (TP_step_mount w d Hw).
  set (s2 := TP.formatWithTranslation c None false
               (TP.set_translations [c] (TP.resolve TP.PTranslate s1))).
  assert (E2 : TP.step s1 (TP.TranslateDone (Ok [c])) = s2)
    by (rewrite TP_step_translate_ok by apply mem_app_last; reflexivity).
  set (s3 := TP.set_phase TP.Preview (TP.set_cardData (Some card)
               (TP.resolve (TP.PFormat c None false) s2))).
  assert (E3 : TP.step s2 (TP.FormatDone c None false (Ok card)) = s3)
    by (rewrite TP_step_format_ok by apply mem_app_last; reflexivity).
  set (s4 := TP.await_call TP.PCreate
               (TP.CallCreate (TP.deckId s3) (note_type_id card) (fields card) (TP.word s3))
               (TP.set_saving true s3)).
  assert (E4 : TP.step s3 (TP.Click TP.AAccept) = s4).
  { apply TP_step_click_accept; [| reflexivity].
    apply (TP_accept_in s3 card); [exact Hw | reflexivity | reflexivity | reflexivity]. }
  set (s5 := TP.await_call (TP.PAccept id) (TP.CallAccept id) (TP.resolve TP.PCreate s4)).
  assert (E5 : TP.step s4 (TP.CreateDone (Ok id)) = s5)
    by (apply TP_step_create_ok; apply mem_app_last).
  assert (E6 : TP.step s5 (TP.AcceptDone id (Ok tt))
               = TP.set_saving false (TP.set_phase TP.Saved (TP.resolve (TP.PAccept id) s5)))
    by (assert (Hp6 : TP.is_pending (TP.PAccept id) s5 = true) by apply mem_app_last;
        unfold TP.step; rewrite Hp6; reflexivity).
  assert (Hs : s = TP.set_saving false (TP.set_phase TP.Saved (TP.resolve (TP.PAccept id) s5))).
  { unfold s, TP.run, fold_left. rewrite E1, E2, E3, E4, E5, E6. reflexivity. }
  rewrite Hs. repeat split.
Qed.

(** * Witnesses: each theorem applied at a concrete input *)

Lemma C1_accept_retry_recreates_witness :
  (TP.word preview_state <> "" /\ TP.phase preview_state = TP.Preview
   /\ TP.cardData preview_state = Some basic_card /\ TP.saving preview_state = false)
  /\ TP.createCard_calls
       (TP.step (TP.run preview_state [TP.Click TP.AAccept; TP.CreateDone (Ok "card-1");
                                       TP.AcceptDone "card-1" (Err "Card not found")])
          (TP.Click TP.AAccept)) = 2.
Proof.
  split; [split; [discriminate | split; [reflexivity | split; reflexivity]] |].
  destruct (C1_accept_retry_recreates preview_state basic_card "card-1" "Card not found")
    as [_ [_ [_ [_ [_ H]]]]]; [discriminate | reflexivity .. |].
  exact H.
Defined.

Lemma C2_auto_advance_witness :
  TP.is_pending TP.PTranslate translating_state = true
  /\ TP.phases translating_state
       [TP.TranslateDone (Ok [hund_dog]); TP.FormatDone hund_dog None false (Ok basic_card)]
     = [TP.Formatting; TP.Preview]
  /\ TP.phase (TP.step translating_state (TP.TranslateDone (Ok [hund_dog; hund_hound])))
     = TP.Choosing.
Proof.
  assert (H : TP.is_pending TP.PTranslate translating_state = true) by reflexivity.
  destruct (C2_auto_advance translating_state H) as [H1 H2].
  split; [exact H |]. split.
  - exact (proj1 (H1 hund_dog basic_card)).
  - apply H2. simpl. lia.
Defined.

Lemma C3_request_without_token_witness :
  Client.authToken empty_token_client = Some ""
  /\ ProtectedRoute empty_token_client = NavigateLogin
  /\ Client.authToken abc_client = Some "abc"
  /\ Client.authToken (fst (fst (Client.request abc_client "/cards" Client.default_opts
                                  (Client.Resp 401 "Unauthorized" None)))) = None.
Proof.
  assert (Ht : Client.truthy_str (Client.authToken empty_token_client) = false)
    by reflexivity.
  destruct (C3_request_without_token empty_token_client "/cards" Client.default_opts
              cards_401 Ht) as [Hp [_ H401]].
  split; [reflexivity |]. split; [exact Hp |]. split; [reflexivity |].
  exact (proj1 (H401 abc_client "Unauthorized" None eq_refl)).
Defined.

Lemma C4_duplicate_check_failure_proceeds_witness :
  (nth_error (WS.words ws_words_state) 1 = Some "Hund" /\ WS.checking ws_words_state = None
   /\ WS.deckId ws_words_state <> "")
  /\ WS.route (WS.step (WS.step ws_words_state (WS.Click (WS.AWord 1)))
                 (WS.CheckDone "Hund" (Err "Service unavailable"))) = Some "/translate".
Proof.
  split; [split; [reflexivity | split; [reflexivity | discriminate]] |].
  destruct (C4_duplicate_check_failure_proceeds ws_words_state 1 "Hund" "Service unavailable")
    as [_ [_ [H _]]]; [reflexivity | reflexivity | discriminate |].
  exact H.
Defined.

Lemma C5_zero_candidates_choosing_witness :
  "Hund" <> ""
  /\ TP.actions (TP.run (TP.init "Hund" german_deck) [TP.Mount; TP.TranslateDone (Ok [])])
     = [TP.ABackToWords].
Proof.
  split; [discriminate |].
  destruct (C5_zero_candidates_choosing "Hund" german_deck) as [_ [_ [_ [H _]]]];
    [discriminate |].
  exact H.
Defined.

Lemma C6_native_draft_replaces_witness :
  (TP.is_pending (TP.PGetMe hund_dog) adding_native_state = true
   /\ Client.truthy_str (Some "French") = true)
  /\ TP.cardData (TP.step (TP.step adding_native_state (TP.GetMeDone hund_dog (Ok (Some "French"))))
                    (TP.FormatDone hund_dog (Some "French") true (Ok native_card)))
     = Some native_card.
Proof.
  split; [split; reflexivity |].
  destruct (C6_native_draft_replaces adding_native_state hund_dog (Some "French") native_card)
    as [_ [_ [_ [H _]]]]; [reflexivity | reflexivity |].
  exact H.
Defined.

Lemma C7_translate_result_witness :
  (Client.res_ok 200 = true /\ (200 =? 204)%Z = false /\ Client.res_ok 502 = false)
  /\ outcome_of (Client.translate c_empty "hund-request"
                   (Client.Resp 200 "OK" (Some (JObj [("translations", JArr [])]))))
     = Client.Resolved (Some (JObj [("translations", JArr [])]))
  /\ outcome_of (Client.translate c_empty "hund-request"
                   (Client.Resp 502 "Bad Gateway" (Some JNull)))
     = Client.Rejected Client.TypeError.
Proof.
  split; [split; [reflexivity | split; reflexivity] |].
  destruct (C7_translate_result c_empty "hund-request") as [H1 [_ [_ [_ [_ [_ H7]]]]]].
  split; [apply H1; reflexivity | apply H7; reflexivity].
Defined.

Lemma C8_single_accept_in_flight_witness :
  TP.accept_inv preview_state
  /\ length (filter TP.is_create_pending
               (TP.inflight (TP.run preview_state
                               [TP.Click TP.AAccept; TP.Click TP.AAccept]))) <= 1.
Proof.
  assert (H : TP.accept_inv preview_state) by reflexivity.
  split; [exact H |].
  exact (proj1 (C8_single_accept_in_flight preview_state _ H)).
Defined.

Lemma C9_setToken_sync_witness :
  "abc" <> ""
  /\ Client.authToken (Client.client_init (Client.storage (Client.setToken (Some "abc") c_empty)))
     = Some "abc".
Proof.
  split; [discriminate |].
  exact (proj2 (proj2 (proj1 (C9_setToken_sync c_empty) "abc" ltac:(discriminate)))).
Defined.

Lemma C10_status_text_message_witness :
  Client.res_ok 503 = false
  /\ outcome_of (Client.request c_empty "/cards" Client.default_opts
                   (Client.Resp 503 "Service Unavailable" None))
     = Client.Rejected (Client.Error (Client.MStr "Service Unavailable")).
Proof.
  assert (Hok : Client.res_ok 503 = false) by reflexivity.
  split; [exact Hok |].
  apply (proj1 (C10_status_text_message c_empty "/cards" Client.default_opts 503
                  "Service Unavailable" None Hok)).
  left. reflexivity.
Defined.

Lemma X2_login_401_keeps_token_witness :
  String.prefix "/auth/login" "/auth/login" = true
  /\ fst (fst (Client.request c_empty "/auth/login" Client.default_opts
                 (Client.Resp 401 "Unauthorized" None))) = c_empty.
Proof.
  assert (Hp : String.prefix "/auth/login" "/auth/login" = true) by reflexivity.
  split; [exact Hp |].
  exact (proj1 (X2_login_401_keeps_token c_empty "/auth/login" Client.default_opts
                  "Unauthorized" None Hp)).
Defined.

Lemma X5_error_detail_verbatim_witness :
  (Client.res_ok 404 = false /\ obj_get "detail" [("detail", JStr "Card not found")]
                                = Some (JStr "Card not found") /\ "Card not found" <> "")
  /\ snd (Client.request c_empty "/cards/x" Client.default_opts
            (Client.Resp 404 "Not Found" (Some (JObj [("detail", JStr "Card not found")]))))
     = Client.Rejected (Client.Error (Client.MStr "Card not found")).
Proof.
  split; [split; [reflexivity | split; [reflexivity | discriminate]] |].
  apply (X5_error_detail_verbatim c_empty "/cards/x" Client.default_opts 404 "Not Found");
    [reflexivity | reflexivity | discriminate].
Defined.

Lemma X12_no_deck_selects_directly_witness :
  (nth_error (WS.words (WS.init ["Hund"] "" "")) 0 = Some "Hund"
   /\ WS.checking (WS.init ["Hund"] "" "") = None /\ WS.deckId (WS.init ["Hund"] "" "") = "")
  /\ WS.route (WS.step (WS.init ["Hund"] "" "") (WS.Click (WS.AWord 0))) = Some "/translate".
Proof.
  split; [split; [reflexivity | split; reflexivity] |].
  destruct (X12_no_deck_selects_directly (WS.init ["Hund"] "" "") 0 "Hund")
    as [_ [H _]]; [reflexivity | reflexivity | reflexivity |].
  exact H.
Defined.

Lemma X13_check_verdict_witness :
  mem string_dec "Hund" (WS.checks ws_checking_state) = true
  /\ WS.route (WS.step ws_checking_state (WS.CheckDone "Hund" (Ok hund_dup_verdict)))
     = WS.route ws_checking_state.
Proof.
  assert (Hp : mem string_dec "Hund" (WS.checks ws_checking_state) = true) by reflexivity.
  split; [exact Hp |].
  destruct (X13_check_verdict ws_checking_state "Hund" hund_dup_verdict Hp) as [_ [H _]].
  exact (proj1 (proj2 (H eq_refl))).
Defined.

Lemma X14_duplicate_choice_witness :
  (WS.words ws_warning_state <> []
   /\ WS.duplicate ws_warning_state
      = Some (WS.mkDup "Hund" "similar to 'der Hund'" (Some "card-7")))
  /\ WS.selectedWord (WS.step ws_warning_state (WS.Click WS.AProceed)) = "Hund".
Proof.
  split; [split; [discriminate | reflexivity] |].
  destruct (X14_duplicate_choice ws_warning_state
              (WS.mkDup "Hund" "similar to 'der Hund'" (Some "card-7")))
    as [H _]; [discriminate | reflexivity |].
  exact H.
Defined.

Lemma X15_verdict_not_cached_witness :
  (nth_error (WS.words ws_words_state) 1 = Some "Hund" /\ WS.checking ws_words_state = None
   /\ WS.deckId ws_words_state <> "" /\ WS.is_duplicate hund_dup_verdict = true)
  /\ WS.checking (WS.run ws_words_state
                    [WS.Click (WS.AWord 1); WS.CheckDone "Hund" (Ok hund_dup_verdict);
                     WS.Click WS.AChooseDifferent; WS.Click (WS.AWord 1)]) = Some "Hund".
Proof.
  split; [split; [reflexivity | split; [reflexivity | split; [discriminate | reflexivity]]] |].
  destruct (X15_verdict_not_cached ws_words_state 1 "Hund" hund_dup_verdict)
    as [H _]; [reflexivity | reflexivity | discriminate | reflexivity |].
  exact H.
Defined.

Lemma X20_translate_failure_recovers_witness :
  "Hund" <> ""
  /\ TP.phase (TP.run (TP.init "Hund" german_deck)
                 [TP.Mount; TP.TranslateDone (Err "Translation failed")]) = TP.Choosing.
Proof.
  split; [discriminate |].
  exact (proj1 (X20_translate_failure_recovers "Hund" german_deck "Translation failed"
                  ltac:(discriminate))).
Defined.

Lemma X21_format_failure_back_to_choosing_witness :
  TP.is_pending (TP.PFormat hund_dog (Some "French") true) native_formatting_state = true
  /\ TP.phase (TP.step native_formatting_state
                 (TP.FormatDone hund_dog (Some "French") true (Err "Card formatting failed")))
     = TP.Choosing
  /\ TP.addingNative (TP.step native_formatting_state
                 (TP.FormatDone hund_dog (Some "French") true (Err "Card formatting failed")))
     = false.
Proof.
  assert (Hp : TP.is_pending (TP.PFormat hund_dog (Some "French") true)
                 native_formatting_state = true) by reflexivity.
  destruct (X21_format_failure_back_to_choosing native_formatting_state hund_dog
              (Some "French") true "Card formatting failed" Hp)
    as [H1 [_ [_ [_ [_ H2]]]]].
  split; [exact Hp | split; [exact H1 | exact H2]].
Defined.

Lemma X22_choose_candidate_witness :
  (TP.word choosing_state <> "" /\ TP.phase choosing_state = TP.Choosing
   /\ nth_error (TP.translations choosing_state) 1 = Some hund_hound)
  /\ TP.chosenTranslation (TP.step choosing_state (TP.Click (TP.AChoose 1)))
     = Some hund_hound.
Proof.
  split; [split; [discriminate | split; reflexivity] |].
  destruct (X22_choose_candidate choosing_state 1 hund_hound)
    as [_ [H _]]; [discriminate | reflexivity | reflexivity |].
  exact H.
Defined.

Lemma X23_create_failure_keeps_draft_witness :
  TP.is_pending TP.PCreate saving_state = true
  /\ TP.cardData (TP.step saving_state (TP.CreateDone (Err "Failed to save card")))
     = Some basic_card.
Proof.
  assert (Hp : TP.is_pending TP.PCreate saving_state = true) by reflexivity.
  split; [exact Hp |].
  destruct (X23_create_failure_keeps_draft saving_state "Failed to save card" Hp)
    as [_ [H _]].
  exact H.
Defined.

Lemma X24_native_language_missing_witness :
  (TP.is_pending (TP.PGetMe hund_dog) adding_native_state = true
   /\ Client.truthy_str None = false)
  /\ TP.error (TP.step adding_native_state (TP.GetMeDone hund_dog (Ok None)))
     = "Please set your native language in Settings first.".
Proof.
  assert (Hp : TP.is_pending (TP.PGetMe hund_dog) adding_native_state = true) by reflexivity.
  split; [split; [exact Hp | reflexivity] |].
  exact (proj1 (X24_native_language_missing adding_native_state hund_dog None Hp eq_refl)).
Defined.

Lemma X25_saved_is_final_witness :
  (TP.phase saved_state = TP.Saved /\ TP.inflight saved_state = []
   /\ ~ In TP.Mount [TP.Click TP.AAccept; TP.CreateDone (Ok "card-2")])
  /\ TP.phase (TP.run saved_state [TP.Click TP.AAccept; TP.CreateDone (Ok "card-2")])
     = TP.Saved.
Proof.
  assert (Hm : ~ In TP.Mount [TP.Click TP.AAccept; TP.CreateDone (Ok "card-2")]).
  { simpl. intros [H | [H | []]]; discriminate. }
  split; [split; [reflexivity | split; [reflexivity | exact Hm]] |].
  exact (proj1 (X25_saved_is_final saved_state _ eq_refl eq_refl Hm)).
Defined.

Lemma X26_late_native_reopens_saved_witness :
  (TP.word saved_native_pending_state <> "" /\ TP.phase saved_native_pending_state = TP.Saved
   /\ TP.saving saved_native_pending_state = false
   /\ TP.is_pending (TP.PGetMe hund_dog) saved_native_pending_state = true
   /\ Client.truthy_str (Some "French") = true)
  /\ TP.phase (TP.step saved_native_pending_state (TP.GetMeDone hund_dog (Ok (Some "French"))))
     = TP.Formatting.
Proof.
  split; [split; [discriminate | split; [reflexivity | split; [reflexivity | split; reflexivity]]] |].
  destruct (X26_late_native_reopens_saved saved_native_pending_state hund_dog (Some "French")
              native_card) as [H _]; [discriminate | reflexivity | reflexivity | reflexivity
                                      | reflexivity |].
  exact H.
Defined.

Lemma X27_reject_makes_no_call_witness :
  (TP.word preview_state <> "" /\ TP.phase preview_state = TP.Preview
   /\ TP.cardData preview_state = Some basic_card)
  /\ TP.route (TP.step preview_state (TP.Click TP.AReject)) = Some "/words".
Proof.
  split; [split; [discriminate | split; reflexivity] |].
  destruct (X27_reject_makes_no_call preview_state basic_card) as [H _];
    [discriminate | reflexivity | reflexivity |].
  exact H.
Defined.

Lemma X28_one_candidate_accept_flow_witness :
  "Hund" <> ""
  /\ TP.phase (TP.run (TP.init "Hund" german_deck)
                 [TP.Mount; TP.TranslateDone (Ok [hund_dog]);
                  TP.FormatDone hund_dog None false (Ok basic_card);
                  TP.Click TP.AAccept; TP.CreateDone (Ok "card-1");
                  TP.AcceptDone "card-1" (Ok tt)]) = TP.Saved.
Proof.
  split; [discriminate |].
  exact (proj1 (X28_one_candidate_accept_flow "Hund" german_deck "card-1" hund_dog basic_card
                  ltac:(discriminate))).
Defined.
